(** * PhiloTrans: request shaping, reply interpretation, import and export

    A shallow embedding of the TypeScript sources
    - [constants.ts], [types.ts],
    - [services/gemini.ts] (the API-access layer),
    - [components/TranslationPanel.tsx] and its text-only variant,
      [components/ImageAnalysisPanel.tsx], [components/ImageGenerationPanel.tsx]
      (the state and the event handlers, not the markup),
    followed by the properties established about them.

    Conventions of the embedding.
    - A JavaScript string is the list of its UTF-16 code units.
    - [undefined]/[null] are [None]; a value tested for truthiness is tested
      with [truthy] (strings) or by being [Some] (objects).
    - An [async] handler is modelled by its net effect once every awaited
      operation has settled, with no other event interleaved.
    - Everything a handler does to the outside world (network call, console,
      alert, download) is recorded, in order, in a list of [Event]s. *)

From Stdlib Require Import List NArith Bool String Ascii QArith Lia DecimalString.
Import ListNotations.

Local Open Scope N_scope.
Local Open Scope list_scope.

(* ===================================================================== *)
(** * JavaScript strings *)
(* ===================================================================== *)

Module JS.

(** A string is its sequence of UTF-16 code units. *)
Definition jsstring : Type := list N.

(** Source literals (all of them are ASCII). *)
Definition lit (s : string) : jsstring :=
  map N_of_ascii (list_ascii_of_string s).

Definition nl : jsstring := [10].   (* the escape \n *)
Definition dq : jsstring := [34].   (* a double quote inside a literal *)

(** [a === b] on strings. *)
Fixpoint str_eqb (a b : jsstring) : bool :=
  match a, b with
  | [], [] => true
  | x :: a', y :: b' => (x =? y) && str_eqb a' b'
  | _, _ => false
  end.

(** Truthiness of a string: every string but the empty one. *)
Definition truthy (s : jsstring) : bool :=
  match s with [] => false | _ :: _ => true end.

(** Truthiness of a possibly undefined string. *)
Definition truthy_opt (o : option jsstring) : bool :=
  match o with Some s => truthy s | None => false end.

(** [o || d] where [o] is a possibly undefined string. *)
Definition or_else (o : option jsstring) (d : jsstring) : jsstring :=
  match o with
  | Some s => if truthy s then s else d
  | None => d
  end.

(** Truthiness of a possibly undefined object. *)
Definition defined {A : Type} (o : option A) : bool :=
  match o with Some _ => true | None => false end.

(** ECMAScript WhiteSpace and LineTerminator code points, the characters
    [String.prototype.trim] removes. *)
Definition isWhiteSpace (c : N) : bool :=
  (c =? 9) || (c =? 10) || (c =? 11) || (c =? 12) || (c =? 13) ||
  (c =? 32) || (c =? 160) || (c =? 5760) ||
  ((8192 <=? c) && (c <=? 8202)) ||
  (c =? 8232) || (c =? 8233) || (c =? 8239) || (c =? 8287) ||
  (c =? 12288) || (c =? 65279).

(** A string is blank when all its code units are white space (the empty
    string included). *)
Definition blank (s : jsstring) : bool := forallb isWhiteSpace s.

Fixpoint trimStart (s : jsstring) : jsstring :=
  match s with
  | [] => []
  | c :: s' => if isWhiteSpace c then trimStart s' else s
  end.

Definition trimEnd (s : jsstring) : jsstring := rev (trimStart (rev s)).

Definition trim (s : jsstring) : jsstring := trimEnd (trimStart s).

(** [s.startsWith(p)]. *)
Fixpoint startsWith (p s : jsstring) : bool :=
  match p, s with
  | [], _ => true
  | x :: p', y :: s' => (x =? y) && startsWith p' s'
  | _ :: _, [] => false
  end.

(** [s.includes(p)]. *)
Fixpoint includes (p s : jsstring) : bool :=
  startsWith p s ||
  match s with
  | [] => false
  | _ :: s' => includes p s'
  end.

(** Case folding of a regular expression with the [i] flag (and without
    the [u] flag), on the ASCII letters: no code unit outside ASCII is
    canonicalised to an ASCII letter, so a pattern letter matches exactly
    its two ASCII cases. *)
Definition lowerAscii (c : N) : N :=
  if (65 <=? c) && (c <=? 90) then c + 32 else c.

Fixpoint startsWithCI (p s : jsstring) : bool :=
  match p, s with
  | [], _ => true
  | x :: p', y :: s' => (lowerAscii x =? lowerAscii y) && startsWithCI p' s'
  | _ :: _, [] => false
  end.

(** [s.match(/<p>$/i)] for a literal pattern [p]: [s] ends with [p], up to
    the case of ASCII letters. *)
Definition endsWithCI (p s : jsstring) : bool :=
  startsWithCI (rev p) (rev s).

(** [s.split(sep)] for a separator of one code unit (the two call sites
    split on a comma and on a line feed). *)
Fixpoint split (sep : N) (s : jsstring) : list jsstring :=
  match s with
  | [] => [[]]
  | c :: s' =>
      if c =? sep then [] :: split sep s'
      else match split sep s' with
           | w :: ws => (c :: w) :: ws
           | [] => [[c]]
           end
  end.

(** [a.join(sep)], the inverse of [split]. *)
Fixpoint join (sep : N) (ws : list jsstring) : jsstring :=
  match ws with
  | [] => []
  | [w] => w
  | w :: ws' => w ++ sep :: join sep ws'
  end.

(** [a[i]] on an array: [undefined] out of range. *)
Definition index {A : Type} (a : list A) (i : nat) : option A := nth_error a i.

(** [a.slice(0, n)]. *)
Definition slice0 {A : Type} (n : nat) (a : list A) : list A := firstn n a.

(** A number interpolated in a template literal (non-negative integers). *)
Definition decimal (n : N) : jsstring :=
  lit (NilZero.string_of_uint (N.to_uint n)).

(** A possibly undefined string interpolated in a template literal. *)
Definition interpolate (o : option jsstring) : jsstring :=
  match o with Some s => s | None => lit "undefined" end.

End JS.
Import JS.

(* ===================================================================== *)
(** * constants.ts and types.ts *)
(* ===================================================================== *)

Module MODELS.
Definition TRANSLATION_FAST : jsstring := lit "gemini-2.5-flash-lite-latest".
Definition TRANSLATION_DEEP : jsstring := lit "gemini-3-pro-preview".
Definition ANALYSIS : jsstring := lit "gemini-3-pro-preview".
Definition IMAGE_GEN : jsstring := lit "gemini-3-pro-image-preview".
Definition TERM_SEARCH : jsstring := lit "gemini-2.5-flash".
End MODELS.

Module PROMPTS.
Definition SYSTEM_TRANSLATOR : jsstring :=
  lit "You are a world-class translator of philosophical literary texts, specifically focusing on English-Turkish translation. " ++ nl ++
  lit "Your goal is to preserve the profound meaning of the text and the precise meaning of philosophical terms. " ++ nl ++
  lit "If a term has multiple interpretations, choose the one fitting the context best or provide a brief translator's note." ++ nl ++
  lit "Ensure the tone is academic, literary, and respectful of the source material.".

Definition SYSTEM_ANALYSIS : jsstring :=
  lit "You are a philosophical analyst. " ++ nl ++
  lit "If the user provides an image WITH text, translate the text preserving philosophical meaning." ++ nl ++
  lit "If the user provides an image WITHOUT text (e.g., a drawing, photograph, symbol), your task is to " ++ dq ++
  lit "change all the words except for the important terms" ++ dq ++ lit ". " ++ nl ++
  lit "Interpretation: This means you should generate a philosophical textual interpretation of the visual imagery. " ++ nl ++
  lit "Identify the key philosophical " ++ dq ++ lit "terms" ++ dq ++ lit " or " ++ dq ++ lit "symbols" ++ dq ++
  lit " present (e.g., " ++ dq ++ lit "Existentialism" ++ dq ++ lit ", " ++ dq ++ lit "Void" ++ dq ++ lit ", " ++ dq ++
  lit "Sublime" ++ dq ++
  lit ") and weave a new narrative or description around them, strictly maintaining the weight of these terms while creatively describing the visual context.".
End PROMPTS.

Inductive AppMode := TRANSLATE | ANALYZE | IMAGINE.

Inductive TranslationSpeed := FAST | DEEP.

Inductive ImageSize := SIZE_1K | SIZE_2K | SIZE_4K.

Definition speed_eqb (a b : TranslationSpeed) : bool :=
  match a, b with
  | FAST, FAST | DEEP, DEEP => true
  | _, _ => false
  end.

(** The string value of an [ImageSize] member. *)
Definition ImageSize_value (s : ImageSize) : jsstring :=
  match s with
  | SIZE_1K => lit "1K"
  | SIZE_2K => lit "2K"
  | SIZE_4K => lit "4K"
  end.

(* ===================================================================== *)
(** * The model API: requests and replies (package @google/genai) *)
(* ===================================================================== *)

Module Genai.

(** [Blob]: inline binary data; both fields are optional in the API. *)
Record Blob := { mimeType : option jsstring; data : option jsstring }.

Record Part := { inlineData : option Blob; text : option jsstring }.

Definition inlinePart (b : Blob) : Part := {| inlineData := Some b; text := None |}.
Definition textPart (s : jsstring) : Part := {| inlineData := None; text := Some s |}.

(** [contents] is either a bare string or an object [{ parts: [...] }]. *)
Inductive ContentUnion :=
| ContentString (s : jsstring)
| ContentParts (parts : list Part).

Record ThinkingConfig := { thinkingBudget : N }.

Inductive Tool := googleSearch.

Record ImageConfig := { imageSize : ImageSize; aspectRatio : jsstring }.

(** The [config] object; an absent key is [None]. *)
Record GenerateContentConfig := {
  systemInstruction : option jsstring;
  thinkingConfig : option ThinkingConfig;
  tools : option (list Tool);
  imageConfig : option ImageConfig
}.

Record GenerateContentParameters := {
  model : jsstring;
  contents : ContentUnion;
  config : GenerateContentConfig
}.

Record Web := { uri : option jsstring }.
Record GroundingChunk := { web : option Web }.
Record GroundingMetadata := { groundingChunks : option (list GroundingChunk) }.
Record Content := { parts : option (list Part) }.
Record Candidate := {
  content : option Content;
  groundingMetadata : option GroundingMetadata
}.

(** The reply. [response_text] is the reply's [text] accessor (the primary
    text), [undefined] when the reply carries none. *)
Record GenerateContentResponse := {
  response_text : option jsstring;
  candidates : option (list Candidate)
}.

End Genai.
Import Genai.

(* ===================================================================== *)
(** * Effects *)
(* ===================================================================== *)

(** A thrown value, as far as the code inspects it: its [message]. *)
Record JsError := { message : option jsstring }.

Definition Error (msg : jsstring) : JsError := {| message := Some msg |}.

(** A file picked by the user, as the browser hands it over. *)
Module Browser.
Record File := {
  name : jsstring;
  type : jsstring;
  (** what [FileReader.readAsDataURL] delivers to [onload]/[onloadend];
      [None] when the read fails *)
  dataURL : option jsstring;
  (** [file.arrayBuffer()] *)
  arrayBuffer : JsError + list N;
  (** [file.text()] *)
  text : JsError + jsstring
}.
End Browser.

(** Documents handed to the export libraries. *)
Module Docx.
Record TextRun := { run : jsstring }.
Record Spacing := { after : N }.
Record Paragraph := { children : list TextRun; spacing : Spacing }.
(** A section; its [properties] object is always the empty object. *)
Record Section := { section_children : list Paragraph }.
Record Document := { sections : list Section }.
End Docx.

Module PdfMake.
Record TextBlock := { text : jsstring; style : jsstring }.
Record Style := {
  fontSize : N;
  bold : option bool;
  margin : option (list N);
  lineHeight : option Q
}.
Record DocDefinition := {
  content : list TextBlock;
  styles : list (jsstring * Style)
}.
(** The style a block's [style] name refers to. *)
Fixpoint lookupStyle (styles : list (jsstring * Style)) (name : jsstring) : option Style :=
  match styles with
  | [] => None
  | (n, st) :: rest => if str_eqb n name then Some st else lookupStyle rest name
  end.
End PdfMake.

(** What a [Blob] handed to the download machinery was made from. *)
Inductive DownloadBlob :=
| TextBlob (parts : list jsstring) (mime : jsstring)
| PackedDocx (doc : Docx.Document).

Inductive Event :=
| GenerateContent (apiKey : jsstring) (req : GenerateContentParameters)
| ConsoleError (label : option jsstring) (err : option JsError)
| Alert (msg : jsstring)
| SaveAs (blob : DownloadBlob) (filename : jsstring)
| AnchorDownload (blob : DownloadBlob) (filename : jsstring)
| PdfDownload (def : PdfMake.DocDefinition) (filename : jsstring)
| ResetFileInput
| OpenSelectKey
| UnhandledRejection (err : JsError)
(** a [TypeError] thrown inside an event handler and caught by no one *)
| UncaughtTypeError.

(** The network calls of a trace. *)
Definition isNetworkCall (e : Event) : bool :=
  match e with GenerateContent _ _ => true | _ => false end.

Definition networkCalls (t : list Event) : list Event := filter isNetworkCall t.

(** The AI Studio key-selection capability on [window]: what each awaited
    call settles to, a rejection being [inl]. *)
Record AiStudio := {
  hasSelectedApiKey : JsError + bool;        (* the call before the dialog *)
  openSelectKey : JsError + unit;            (* the selection dialog *)
  hasSelectedApiKey_after : JsError + bool   (* the call after the dialog *)
}.

(** The ambient world a handler runs in. *)
Record Env := {
  API_KEY : option jsstring;                                (* process.env.API_KEY *)
  generateContent : GenerateContentParameters -> JsError + GenerateContentResponse;
  aistudio : option AiStudio;                               (* window.aistudio *)
  mammoth : option (list N -> JsError + jsstring);          (* window.mammoth.extractRawText *)
  docx : bool;                                              (* window.docx *)
  saveAs : bool;                                            (* window.saveAs *)
  pdfMake : bool;                                           (* window.pdfMake *)
  Date_now : N;                                             (* Date.now() *)
  (** [new URL(u).hostname]: the browser's URL parser, which throws on a
      string that is not an absolute URL *)
  URL_hostname : jsstring -> JsError + jsstring
}.

(** Computations that log events and either throw or return. *)
Definition Eff (A : Type) : Type := list Event * (JsError + A).

Definition ret {A} (a : A) : Eff A := ([], inr a).

Definition throw {A} (e : JsError) : Eff A := ([], inl e).

Definition bind {A B} (m : Eff A) (f : A -> Eff B) : Eff B :=
  match m with
  | (t, inl e) => (t, inl e)
  | (t, inr a) => let (t', r) := f a in (t ++ t', r)
  end.

Definition emit (ev : Event) : Eff unit := ([ev], inr tt).

(** [try { m } catch (e) { h e }]. *)
Definition try_catch {A} (m : Eff A) (h : JsError -> Eff A) : Eff A :=
  match m with
  | (t, inl e) => let (t', r) := h e in (t ++ t', r)
  | (t, inr a) => (t, inr a)
  end.

Declare Scope eff_scope.
Delimit Scope eff_scope with eff.
Notation "x <- m ;; k" := (bind m (fun x => k))
  (at level 61, m at next level, right associativity) : eff_scope.
Notation "m ;;; k" := (bind m (fun _ => k))
  (at level 61, right associativity) : eff_scope.

Definition trace {A} (m : Eff A) : list Event := fst m.
Definition outcome {A} (m : Eff A) : JsError + A := snd m.

(** [await ai.models.generateContent(req)]. *)
Definition callModel (env : Env) (ai : jsstring) (req : GenerateContentParameters)
  : Eff GenerateContentResponse :=
  ([GenerateContent ai req], generateContent env req).

(* ===================================================================== *)
(** * services/gemini.ts *)
(* ===================================================================== *)

Module Gemini.
Local Open Scope eff_scope.

(** The client is identified with the key it was built from. *)
Definition getAiClient (env : Env) : Eff jsstring :=
  match API_KEY env with
  | Some apiKey =>
      if truthy apiKey then ret apiKey
      else emit (ConsoleError (Some (lit "API Key not found in environment")) None) ;;;
           throw (Error (lit "API Key missing"))
  | None =>
      emit (ConsoleError (Some (lit "API Key not found in environment")) None) ;;;
      throw (Error (lit "API Key missing"))
  end.

(** The attachment as the service receives it. *)
Record ServiceAttachment := { att_mimeType : jsstring; att_data : jsstring }.

Record TranslationReply := {
  translation : jsstring;
  groundingUrls : option (list jsstring)
}.

(** The [config] object of [translateContent]. *)
Definition translateConfig (speed : TranslationSpeed) : GenerateContentConfig :=
  let isDeep := speed_eqb speed DEEP in
  {| systemInstruction := Some PROMPTS.SYSTEM_TRANSLATOR;
     thinkingConfig := if isDeep then Some {| thinkingBudget := 32768 |} else None;
     tools := None;
     imageConfig := None |}.

Definition translateModel (speed : TranslationSpeed) : jsstring :=
  let isDeep := speed_eqb speed DEEP in
  if isDeep then MODELS.TRANSLATION_DEEP else MODELS.TRANSLATION_FAST.

Definition translateContents (text : jsstring) (attachment : option ServiceAttachment)
  : ContentUnion :=
  match attachment with
  | Some a =>
      ContentParts
        [ inlinePart {| mimeType := Some (att_mimeType a); data := Some (att_data a) |};
          textPart (lit "Translate the attached document from English to Turkish (or vice versa based on detection). Preserve philosophical nuance."
                    ++ nl ++ nl ++ lit "Context/Instructions from user: " ++ text) ]
  | None =>
      ContentParts
        [ textPart (lit "Translate the following text from English to Turkish (or vice versa based on detection). Preserve philosophical nuance."
                    ++ nl ++ nl ++ text) ]
  end.

Definition translateRequest (text : jsstring) (attachment : option ServiceAttachment)
    (speed : TranslationSpeed) : GenerateContentParameters :=
  {| model := translateModel speed;
     contents := translateContents text attachment;
     config := translateConfig speed |}.

Definition translateContent (env : Env) (text : jsstring)
    (attachment : option ServiceAttachment) (speed : TranslationSpeed)
  : Eff TranslationReply :=
  ai <- getAiClient env ;;
  try_catch
    (response <- callModel env ai (translateRequest text attachment speed) ;;
     ret {| translation := or_else (response_text response) (lit "Translation failed.");
            groundingUrls := Some [] |})
    (fun error =>
       emit (ConsoleError (Some (lit "Translation Error:")) (Some error)) ;;;
       throw error).

Definition translateText (env : Env) (text : jsstring) (speed : TranslationSpeed)
  : Eff TranslationReply :=
  translateContent env text None speed.

(** ** Term definition (grounding) *)

Record TermReply := { definition : option jsstring; urls : list jsstring }.

Definition defineTermRequest (term : jsstring) : GenerateContentParameters :=
  {| model := lit "gemini-2.5-flash";
     contents := ContentString
                   (lit "Define the philosophical term " ++ dq ++ term ++ dq ++
                    lit " in the context of literary theory.");
     config := {| systemInstruction := None; thinkingConfig := None;
                  tools := Some [googleSearch]; imageConfig := None |} |}.

(** [response.candidates?.[0]?.groundingMetadata?.groundingChunks || []] *)
Definition groundingChunksOf (response : GenerateContentResponse) : list GroundingChunk :=
  match candidates response with
  | Some cs =>
      match index cs 0 with
      | Some c =>
          match groundingMetadata c with
          | Some gm =>
              match groundingChunks gm with
              | Some chunks => chunks
              | None => []
              end
          | None => []
          end
      | None => []
      end
  | None => []
  end.

(** [c.web?.uri] *)
Definition webUri (c : GroundingChunk) : option jsstring :=
  match web c with Some w => uri w | None => None end.

(** [xs.filter(u => !!u) as string[]] over possibly undefined strings. *)
Fixpoint filterTruthy (xs : list (option jsstring)) : list jsstring :=
  match xs with
  | [] => []
  | Some u :: xs' => if truthy u then u :: filterTruthy xs' else filterTruthy xs'
  | None :: xs' => filterTruthy xs'
  end.

Definition extractUrls (groundingChunks : list GroundingChunk) : list jsstring :=
  filterTruthy (map webUri groundingChunks).

Definition defineTerm (env : Env) (term : jsstring) : Eff TermReply :=
  ai <- getAiClient env ;;
  try_catch
    (response <- callModel env ai (defineTermRequest term) ;;
     let groundingChunks := groundingChunksOf response in
     let urls := extractUrls groundingChunks in
     ret {| definition := response_text response; urls := urls |})
    (fun e =>
       emit (ConsoleError None (Some e)) ;;;
       ret {| definition := Some (lit "Could not fetch definition."); urls := [] |}).

(** ** Image analysis *)

Record AnalysisReply := { text : jsstring }.

Definition analyzeRequest (mimeType : jsstring) (base64Data : option jsstring)
    (prompt : option jsstring) : GenerateContentParameters :=
  {| model := MODELS.ANALYSIS;
     contents :=
       ContentParts
         [ inlinePart {| mimeType := Some mimeType; data := base64Data |};
           textPart (or_else prompt
             (lit "Analyze this image. If it contains text, translate it preserving philosophical meaning. If it is an image without text, interpret its philosophical symbolism.")) ];
     config := {| systemInstruction := Some PROMPTS.SYSTEM_ANALYSIS;
                  thinkingConfig := None; tools := None; imageConfig := None |} |}.

(** The promise around the [FileReader]: resolves with what follows the
    first comma of the data URL.  When the read fails, [onerror] rejects the
    promise with the error event; [onloadend] runs all the same, on a [null]
    result, and its [result.split] throws a [TypeError] nobody catches. *)
Definition readBase64 (file : Browser.File) : Eff (option jsstring) :=
  match Browser.dataURL file with
  | Some result => ret (index (split 44 result) 1)
  | None => ([UncaughtTypeError], inl {| message := None |})
  end.

Definition analyzeImage (env : Env) (file : Browser.File) (prompt : option jsstring)
  : Eff AnalysisReply :=
  ai <- getAiClient env ;;
  base64Data <- readBase64 file ;;
  let mimeType := Browser.type file in
  try_catch
    (response <- callModel env ai (analyzeRequest mimeType base64Data prompt) ;;
     ret {| text := or_else (response_text response) (lit "Analysis failed.") |})
    (fun error =>
       emit (ConsoleError (Some (lit "Image Analysis Error:")) (Some error)) ;;;
       throw error).

(** ** Image generation *)

Definition imageRequest (prompt : jsstring) (size : ImageSize) : GenerateContentParameters :=
  {| model := MODELS.IMAGE_GEN;
     contents := ContentParts [ textPart prompt ];
     config := {| systemInstruction := None; thinkingConfig := None; tools := None;
                  imageConfig := Some {| imageSize := size; aspectRatio := lit "1:1" |} |} |}.

(** [response.candidates?.[0]?.content?.parts || []] *)
Definition partsOf (response : GenerateContentResponse) : list Part :=
  match candidates response with
  | Some cs =>
      match index cs 0 with
      | Some c =>
          match content c with
          | Some ct =>
              match parts ct with
              | Some ps => ps
              | None => []
              end
          | None => []
          end
      | None => []
      end
  | None => []
  end.

(** The data URL composed from a part's inline data. *)
Definition dataUrlOf (b : Blob) : jsstring :=
  lit "data:" ++ or_else (mimeType b) (lit "image/png") ++ lit ";base64," ++
  interpolate (data b).

(** The [for ... of] loop over the parts, with its [return] and the [throw]
    that follows the loop. *)
Fixpoint extractImage (ps : list Part) : Eff jsstring :=
  match ps with
  | [] => throw (Error (lit "No image generated."))
  | part :: rest =>
      match inlineData part with
      | Some b => ret (dataUrlOf b)
      | None => extractImage rest
      end
  end.

Definition generatePhilosophicalImage (env : Env) (prompt : jsstring) (size : ImageSize)
  : Eff jsstring :=
  ai <- getAiClient env ;;
  try_catch
    (response <- callModel env ai (imageRequest prompt size) ;;
     extractImage (partsOf response))
    (fun error =>
       emit (ConsoleError (Some (lit "Image Gen Error:")) (Some error)) ;;;
       throw error).

(** ** Key selection *)

Definition ensureApiKeySelected (env : Env) : Eff bool :=
  match aistudio env with
  | Some studio =>
      hasKey <- ([], hasSelectedApiKey studio) ;;
      if negb hasKey then
        ([OpenSelectKey], openSelectKey studio) ;;;
        ([], hasSelectedApiKey_after studio)
      else ret true
  | None => ret true
  end.

End Gemini.

(* ===================================================================== *)
(** * components/TranslationPanel.tsx *)
(* ===================================================================== *)

Module TranslationPanel.
Local Open Scope eff_scope.

Record TermDefinition := { text : jsstring; urls : list jsstring }.

Record Attachment := { data : jsstring; mimeType : jsstring; name : jsstring }.

(** ['text' | 'pdf' | 'docx'] *)
Inductive SourceFormat := fmt_text | fmt_pdf | fmt_docx.

Definition format_eqb (a b : SourceFormat) : bool :=
  match a, b with
  | fmt_text, fmt_text | fmt_pdf, fmt_pdf | fmt_docx, fmt_docx => true
  | _, _ => false
  end.

(** The component's [useState] cells. *)
Record State := {
  input : jsstring;
  output : jsstring;
  speed : TranslationSpeed;
  loading : bool;
  termQuery : jsstring;
  termDefinition : option TermDefinition;
  definingTerm : bool;
  attachment : option Attachment;
  sourceFormat : SourceFormat
}.

(** The initial values given to [useState]. *)
Definition initialState : State :=
  {| input := []; output := []; speed := DEEP; loading := false;
     termQuery := []; termDefinition := None; definingTerm := false;
     attachment := None; sourceFormat := fmt_text |}.

Definition setInput (v : jsstring) (st : State) : State :=
  {| input := v; output := output st; speed := speed st; loading := loading st;
     termQuery := termQuery st; termDefinition := termDefinition st;
     definingTerm := definingTerm st; attachment := attachment st;
     sourceFormat := sourceFormat st |}.

Definition setOutput (v : jsstring) (st : State) : State :=
  {| input := input st; output := v; speed := speed st; loading := loading st;
     termQuery := termQuery st; termDefinition := termDefinition st;
     definingTerm := definingTerm st; attachment := attachment st;
     sourceFormat := sourceFormat st |}.

Definition setSpeed (v : TranslationSpeed) (st : State) : State :=
  {| input := input st; output := output st; speed := v; loading := loading st;
     termQuery := termQuery st; termDefinition := termDefinition st;
     definingTerm := definingTerm st; attachment := attachment st;
     sourceFormat := sourceFormat st |}.

Definition setLoading (v : bool) (st : State) : State :=
  {| input := input st; output := output st; speed := speed st; loading := v;
     termQuery := termQuery st; termDefinition := termDefinition st;
     definingTerm := definingTerm st; attachment := attachment st;
     sourceFormat := sourceFormat st |}.

Definition setTermQuery (v : jsstring) (st : State) : State :=
  {| input := input st; output := output st; speed := speed st; loading := loading st;
     termQuery := v; termDefinition := termDefinition st;
     definingTerm := definingTerm st; attachment := attachment st;
     sourceFormat := sourceFormat st |}.

Definition setTermDefinition (v : option TermDefinition) (st : State) : State :=
  {| input := input st; output := output st; speed := speed st; loading := loading st;
     termQuery := termQuery st; termDefinition := v;
     definingTerm := definingTerm st; attachment := attachment st;
     sourceFormat := sourceFormat st |}.

Definition setDefiningTerm (v : bool) (st : State) : State :=
  {| input := input st; output := output st; speed := speed st; loading := loading st;
     termQuery := termQuery st; termDefinition := termDefinition st;
     definingTerm := v; attachment := attachment st;
     sourceFormat := sourceFormat st |}.

Definition setAttachment (v : option Attachment) (st : State) : State :=
  {| input := input st; output := output st; speed := speed st; loading := loading st;
     termQuery := termQuery st; termDefinition := termDefinition st;
     definingTerm := definingTerm st; attachment := v;
     sourceFormat := sourceFormat st |}.

Definition setSourceFormat (v : SourceFormat) (st : State) : State :=
  {| input := input st; output := output st; speed := speed st; loading := loading st;
     termQuery := termQuery st; termDefinition := termDefinition st;
     definingTerm := definingTerm st; attachment := attachment st;
     sourceFormat := v |}.

(** ** handleTranslate *)

(** [attachment.data.split(',')[1] || attachment.data] *)
Definition rawBase64 (d : jsstring) : jsstring := or_else (index (split 44 d) 1) d.

Definition handleTranslate (env : Env) (st : State) : State * list Event :=
  if negb (truthy (trim (input st))) && negb (defined (attachment st)) then (st, [])
  else
    let st1 := setOutput [] (setLoading true st) in
    let serviceAttachment :=
      match attachment st with
      | Some a => Some {| Gemini.att_mimeType := mimeType a;
                          Gemini.att_data := rawBase64 (data a) |}
      | None => None
      end in
    let run := Gemini.translateContent env (input st) serviceAttachment (speed st) in
    let st2 :=
      match outcome run with
      | inr result => setOutput (Gemini.translation result) st1
      | inl _ => setOutput (lit "An error occurred during translation. Please try again.") st1
      end in
    (setLoading false st2, trace run).

(** ** handleDefineTerm *)

Definition handleDefineTerm (env : Env) (st : State) : State * list Event :=
  if negb (truthy (trim (termQuery st))) then (st, [])
  else
    let st1 := setDefiningTerm true st in
    let run := Gemini.defineTerm env (termQuery st) in
    let st2 :=
      match outcome run with
      | inr result =>
          setTermDefinition
            (Some {| text := or_else (Gemini.definition result) (lit "No definition found.");
                     urls := Gemini.urls result |}) st1
      | inl _ =>
          setTermDefinition
            (Some {| text := lit "Error fetching definition."; urls := [] |}) st1
      end in
    (setDefiningTerm false st2, trace run).

(** A link of the "Sources:" list: the URL as [href], its host name as the
    text shown. *)
Record SourceLink := { href : jsstring; hostname : jsstring }.

(** [urls.map(url => <a href={url}>{new URL(url).hostname}</a>)]: the first
    URL the parser refuses makes the whole render throw. *)
Fixpoint renderLinks (env : Env) (urls : list jsstring) : JsError + list SourceLink :=
  match urls with
  | [] => inr []
  | url :: rest =>
      match URL_hostname env url with
      | inl e => inl e
      | inr host =>
          match renderLinks env rest with
          | inl e => inl e
          | inr links => inr ({| href := url; hostname := host |} :: links)
          end
      end
  end.

(** The links rendered under "Sources:": shown when [urls.length > 0], one
    per element of [urls.slice(0, 3)]. *)
Definition renderedSources (env : Env) (td : TermDefinition) : JsError + list SourceLink :=
  if Nat.ltb 0 (List.length (urls td)) then renderLinks env (slice0 3 (urls td)) else inr [].

Definition displayedSources (env : Env) (st : State) : JsError + list SourceLink :=
  match termDefinition st with
  | Some td => renderedSources env td
  | None => inr []
  end.

(** ** handleFileSelect *)

(** [file.name.match(/\.docx$/i)] *)
Definition isDocxName (n : jsstring) : bool := endsWithCI (lit ".docx") n.

(** [file.name.match(/\.(txt|md|json)$/i)] *)
Definition isTextName (n : jsstring) : bool :=
  endsWithCI (lit ".txt") n || endsWithCI (lit ".md") n || endsWithCI (lit ".json") n.

(** The first [if]/[else if]/[else] of the handler: the source format kept
    for the later download. *)
Definition detectSourceFormat (file : Browser.File) : SourceFormat :=
  if str_eqb (Browser.type file) (lit "application/pdf") then fmt_pdf
  else if isDocxName (Browser.name file) then fmt_docx
  else fmt_text.

Definition handleFileSelect (env : Env) (files : option Browser.File) (st : State)
  : State * list Event :=
  match files with
  | None => (st, [])
  | Some file =>
      let st := setSourceFormat (detectSourceFormat file) st in
      if str_eqb (Browser.type file) (lit "application/pdf")
         || startsWith (lit "image/") (Browser.type file)
      then
        (* reader.onload fires only when the read succeeds *)
        match Browser.dataURL file with
        | Some res =>
            let st := setAttachment (Some {| data := res;
                                             mimeType := Browser.type file;
                                             name := Browser.name file |}) st in
            (setInput [] st, [ResetFileInput])
        | None => (st, [ResetFileInput])
        end
      else if isDocxName (Browser.name file) then
        match Browser.arrayBuffer file with
        | inr arrayBuffer =>
            match mammoth env with
            | Some extractRawText =>
                match extractRawText arrayBuffer with
                | inr value =>
                    let st := setInput value st in
                    let st := setAttachment None st in
                    (setSourceFormat fmt_docx st, [ResetFileInput])
                | inl err =>
                    (st, [ConsoleError (Some (lit "Error parsing DOCX")) (Some err);
                          Alert (lit "Failed to read DOCX file. Please ensure it is a valid Word document.");
                          ResetFileInput])
                end
            | None =>
                (st, [Alert (lit "Document processor not ready. Please try again in a moment.");
                      ResetFileInput])
            end
        | inl err =>
            (st, [ConsoleError (Some (lit "Error parsing DOCX")) (Some err);
                  Alert (lit "Failed to read DOCX file. Please ensure it is a valid Word document.");
                  ResetFileInput])
        end
      else if startsWith (lit "text/") (Browser.type file) || isTextName (Browser.name file)
      then
        match Browser.text file with
        | inr text => (setAttachment None (setInput text st), [ResetFileInput])
        | inl err => (st, [UnhandledRejection err])
        end
      else
        (st, [Alert (lit "Unsupported file type. Please upload PDF, DOCX, Text, or Image files.");
              ResetFileInput])
  end.

Definition clearAttachment (st : State) : State :=
  setSourceFormat fmt_text (setAttachment None st).

(** ** handleDownload *)

Definition paragraphOf (line : jsstring) : Docx.Paragraph :=
  {| Docx.children := [ {| Docx.run := line |} ];
     Docx.spacing := {| Docx.after := 200 |} |}.

Definition docxDocument (output : jsstring) : Docx.Document :=
  let paragraphs := map paragraphOf (split 10 output) in
  {| Docx.sections := [ {| Docx.section_children := paragraphs |} ] |}.

Definition docDefinition (output : jsstring) : PdfMake.DocDefinition :=
  {| PdfMake.content :=
       [ {| PdfMake.text := lit "Translation"; PdfMake.style := lit "header" |};
         {| PdfMake.text := output; PdfMake.style := lit "body" |} ];
     PdfMake.styles :=
       [ (lit "header", {| PdfMake.fontSize := 18; PdfMake.bold := Some true;
                           PdfMake.margin := Some [0; 0; 0; 10];
                           PdfMake.lineHeight := None |});
         (lit "body", {| PdfMake.fontSize := 12; PdfMake.bold := None;
                         PdfMake.margin := None;
                         PdfMake.lineHeight := Some (3 # 2)%Q |}) ] |}.

Definition handleDownload (env : Env) (st : State) : list Event :=
  if negb (truthy (output st)) then []
  else
    let filename := lit "translation-" ++ decimal (Date_now env) in
    if format_eqb (sourceFormat st) fmt_docx && docx env && saveAs env then
      [SaveAs (PackedDocx (docxDocument (output st))) (filename ++ lit ".docx")]
    else if format_eqb (sourceFormat st) fmt_pdf && pdfMake env then
      [PdfDownload (docDefinition (output st)) (filename ++ lit ".pdf")]
    else
      let blob := TextBlob [output st] (lit "text/plain;charset=utf-8") in
      if saveAs env then [SaveAs blob (filename ++ lit ".txt")]
      else [AnchorDownload blob (filename ++ lit ".txt")].

(** ** The panel as a transition system *)

(** What the user can do on the panel. *)
Inductive Action :=
| TypeInput (v : jsstring)
| TypeTermQuery (v : jsstring)
| PickSpeed (v : TranslationSpeed)
| ClickTranslate
| ClickDefineTerm
| SelectFile (files : option Browser.File)
| ClickClearAttachment
| ClickDownload.

Definition step (env : Env) (st : State) (a : Action) : State :=
  match a with
  | TypeInput v => setInput v st
  | TypeTermQuery v => setTermQuery v st
  | PickSpeed v => setSpeed v st
  | ClickTranslate => fst (handleTranslate env st)
  | ClickDefineTerm => fst (handleDefineTerm env st)
  | SelectFile files => fst (handleFileSelect env files st)
  | ClickClearAttachment => clearAttachment st
  | ClickDownload => st
  end.

Definition run (env : Env) (acts : list Action) (st : State) : State :=
  fold_left (step env) acts st.

End TranslationPanel.

(* ===================================================================== *)
(** * The text-only translation panel (first component of unnamed/part_000) *)
(* ===================================================================== *)

Module TextTranslationPanel.

Record State := {
  input : jsstring;
  output : jsstring;
  speed : TranslationSpeed;
  loading : bool;
  termQuery : jsstring;
  termDefinition : option TranslationPanel.TermDefinition;
  definingTerm : bool
}.

Definition setOutput (v : jsstring) (st : State) : State :=
  {| input := input st; output := v; speed := speed st; loading := loading st;
     termQuery := termQuery st; termDefinition := termDefinition st;
     definingTerm := definingTerm st |}.

Definition setLoading (v : bool) (st : State) : State :=
  {| input := input st; output := output st; speed := speed st; loading := v;
     termQuery := termQuery st; termDefinition := termDefinition st;
     definingTerm := definingTerm st |}.

Definition handleTranslate (env : Env) (st : State) : State * list Event :=
  if negb (truthy (trim (input st))) then (st, [])
  else
    let st1 := setOutput [] (setLoading true st) in
    let run := Gemini.translateText env (input st) (speed st) in
    let st2 :=
      match outcome run with
      | inr result => setOutput (Gemini.translation result) st1
      | inl _ => setOutput (lit "An error occurred during translation. Please try again.") st1
      end in
    (setLoading false st2, trace run).

End TextTranslationPanel.

(* ===================================================================== *)
(** * components/ImageAnalysisPanel.tsx *)
(* ===================================================================== *)

Module ImageAnalysisPanel.

Record State := {
  selectedFile : option Browser.File;
  previewUrl : option jsstring;
  analysis : jsstring;
  loading : bool
}.

Definition initialState : State :=
  {| selectedFile := None; previewUrl := None; analysis := []; loading := false |}.

Definition setSelectedFile (v : option Browser.File) (st : State) : State :=
  {| selectedFile := v; previewUrl := previewUrl st; analysis := analysis st;
     loading := loading st |}.

Definition setPreviewUrl (v : option jsstring) (st : State) : State :=
  {| selectedFile := selectedFile st; previewUrl := v; analysis := analysis st;
     loading := loading st |}.

Definition setAnalysis (v : jsstring) (st : State) : State :=
  {| selectedFile := selectedFile st; previewUrl := previewUrl st; analysis := v;
     loading := loading st |}.

Definition setLoading (v : bool) (st : State) : State :=
  {| selectedFile := selectedFile st; previewUrl := previewUrl st;
     analysis := analysis st; loading := v |}.

Definition handleFileSelect (files : option Browser.File) (st : State) : State :=
  match files with
  | Some file =>
      let st := setSelectedFile (Some file) st in
      let st := setAnalysis [] st in
      match Browser.dataURL file with
      | Some res => setPreviewUrl (Some res) st
      | None => st
      end
  | None => st
  end.

Definition handleAnalyze (env : Env) (st : State) : State * list Event :=
  match selectedFile st with
  | None => (st, [])
  | Some file =>
      let st1 := setLoading true st in
      let run := Gemini.analyzeImage env file None in
      let st2 :=
        match outcome run with
        | inr result => setAnalysis (Gemini.text result) st1
        | inl _ =>
            setAnalysis
              (lit "Failed to analyze image. Please ensure it is a valid image file.") st1
        end in
      (setLoading false st2, trace run)
  end.

End ImageAnalysisPanel.

(* ===================================================================== *)
(** * components/ImageGenerationPanel.tsx *)
(* ===================================================================== *)

Module ImageGenerationPanel.
Local Open Scope eff_scope.

Record State := {
  prompt : jsstring;
  size : ImageSize;
  loading : bool;
  generatedImage : option jsstring;
  error : option jsstring
}.

Definition initialState : State :=
  {| prompt := []; size := SIZE_1K; loading := false; generatedImage := None;
     error := None |}.

Definition setLoading (v : bool) (st : State) : State :=
  {| prompt := prompt st; size := size st; loading := v;
     generatedImage := generatedImage st; error := error st |}.

Definition setGeneratedImage (v : option jsstring) (st : State) : State :=
  {| prompt := prompt st; size := size st; loading := loading st;
     generatedImage := v; error := error st |}.

Definition setError (v : option jsstring) (st : State) : State :=
  {| prompt := prompt st; size := size st; loading := loading st;
     generatedImage := generatedImage st; error := v |}.

(** [e.message?.includes("Requested entity was not found")] *)
Definition isAuthFailure (e : JsError) : bool :=
  match message e with
  | Some m => includes (lit "Requested entity was not found") m
  | None => false
  end.

(** The message the [catch] block of [handleGenerate] shows for [e]. *)
Definition errorMessageFor (e : JsError) : jsstring :=
  if isAuthFailure e
  then lit "Authentication failed. Please try selecting the API key again."
  else lit "Failed to generate image. Please try again.".

Definition handleGenerate (env : Env) (st : State) : State * list Event :=
  if negb (truthy (trim (prompt st))) then (st, [])
  else
    let st1 := setGeneratedImage None (setError None (setLoading true st)) in
    let run :=
      try_catch
        (_ <- Gemini.ensureApiKeySelected env ;;
         imageUrl <- Gemini.generatePhilosophicalImage env (prompt st) (size st) ;;
         ret (setGeneratedImage (Some imageUrl) st1))
        (fun e =>
           emit (ConsoleError None (Some e)) ;;;
           ret (setError (Some (errorMessageFor e)) st1)) in
    match outcome run with
    | inr st2 => (setLoading false st2, trace run)
    | inl _ => (setLoading false st1, trace run)
    end.

(** [handleAuthorize]: the "Reset/Select API Key" button.  The state is not
    touched; a failure of the key flow is only logged. *)
Definition handleAuthorize (env : Env) : list Event :=
  trace (try_catch
           (_ <- Gemini.ensureApiKeySelected env ;; ret tt)
           (fun e => emit (ConsoleError (Some (lit "Auth failed")) (Some e)))).

End ImageGenerationPanel.

(* ===================================================================== *)
(** * Vocabulary of the properties *)
(* ===================================================================== *)

(** The test of the first import branch: a PDF or an image. *)
Definition isBinaryType (file : Browser.File) : bool :=
  str_eqb (Browser.type file) (lit "application/pdf")
  || startsWith (lit "image/") (Browser.type file).

(** The test of the third import branch: a text type or a text extension. *)
Definition isTextLike (file : Browser.File) : bool :=
  startsWith (lit "text/") (Browser.type file)
  || TranslationPanel.isTextName (Browser.name file).

(** A file none of the three import branches takes. *)
Definition isUnsupported (file : Browser.File) : bool :=
  negb (isBinaryType file)
  && negb (TranslationPanel.isDocxName (Browser.name file))
  && negb (isTextLike file).

(** The import of [file] runs to completion: its branch is taken and every
    operation the branch awaits succeeds. *)
Definition importSucceeds (env : Env) (file : Browser.File) : bool :=
  if isBinaryType file then defined (Browser.dataURL file)
  else if TranslationPanel.isDocxName (Browser.name file) then
    match Browser.arrayBuffer file, mammoth env with
    | inr buf, Some extractRawText =>
        match extractRawText buf with inr _ => true | inl _ => false end
    | _, _ => false
    end
  else if isTextLike file then
    match Browser.text file with inr _ => true | inl _ => false end
  else false.


(** The attachment [handleTranslate] hands to the service. *)
Definition sentAttachment (st : TranslationPanel.State) : option Gemini.ServiceAttachment :=
  match TranslationPanel.attachment st with
  | Some a => Some {| Gemini.att_mimeType := TranslationPanel.mimeType a;
                      Gemini.att_data := TranslationPanel.rawBase64 (TranslationPanel.data a) |}
  | None => None
  end.

(** The request [handleTranslate] builds from a panel state. *)
Definition requestOf (st : TranslationPanel.State) : GenerateContentParameters :=
  Gemini.translateRequest (TranslationPanel.input st) (sentAttachment st)
    (TranslationPanel.speed st).

(** What every service logs, and throws, when no key is configured. *)
Definition keyMissingLog : list Event :=
  [ConsoleError (Some (lit "API Key not found in environment")) None].

Definition keyMissing : JsError := Error (lit "API Key missing").

(** The attachment, when there is one, is a PDF or an image. *)
Definition attachmentIsBinary (st : TranslationPanel.State) : Prop :=
  match TranslationPanel.attachment st with
  | Some a =>
      str_eqb (TranslationPanel.mimeType a) (lit "application/pdf")
      || startsWith (lit "image/") (TranslationPanel.mimeType a) = true
  | None => True
  end.

(** The cells the text-only panel shares with the full panel. *)
Definition textOnly (st : TranslationPanel.State) : TextTranslationPanel.State :=
  {| TextTranslationPanel.input := TranslationPanel.input st;
     TextTranslationPanel.output := TranslationPanel.output st;
     TextTranslationPanel.speed := TranslationPanel.speed st;
     TextTranslationPanel.loading := TranslationPanel.loading st;
     TextTranslationPanel.termQuery := TranslationPanel.termQuery st;
     TextTranslationPanel.termDefinition := TranslationPanel.termDefinition st;
     TextTranslationPanel.definingTerm := TranslationPanel.definingTerm st |}.

(** [needle] occurs in [s]. *)
Definition occursIn (needle s : jsstring) : Prop :=
  exists before after, s = before ++ needle ++ after.

(** The panel after [file] has been offered and Translate pressed. *)
Definition importedAndTranslated (env : Env) (file : Browser.File)
    (st : TranslationPanel.State) : TranslationPanel.State :=
  fst (TranslationPanel.handleTranslate env
         (fst (TranslationPanel.handleFileSelect env (Some file) st))).



(* ===================================================================== *)
(** * Concrete worlds, replies and files used in the examples *)
(* ===================================================================== *)

Module Examples.
Import TranslationPanel.

(** A URL parser for the example worlds: it accepts what starts with
    "https://" followed by a host, and answers the host, the part before the
    next slash; it rejects everything else.  On the URLs of the examples it
    answers as a browser does. *)
Definition hostnameOf (u : jsstring) : JsError + jsstring :=
  if startsWith (lit "https://") u then
    match split 47 (skipn 8 u) with
    | (_ :: _) as host :: _ => inr host
    | _ => inl (Error (lit "Invalid URL"))
    end
  else inl (Error (lit "Invalid URL")).

Definition emptyReply : GenerateContentResponse :=
  {| response_text := None; candidates := None |}.

(** A world with a key, every export library loaded, and a model that
    answers every request with [reply]. *)
Definition worldReplying (reply : GenerateContentResponse) : Env :=
  {| API_KEY := Some (lit "key");
     generateContent := fun _ => inr reply;
     aistudio := None;
     mammoth := Some (fun _ => inr (lit "extracted"));
     docx := true; saveAs := true; pdfMake := true;
     Date_now := 1700000000000;
     URL_hostname := hostnameOf |}.

(** The same world before the export libraries have loaded. *)
Definition worldWithoutLibraries : Env :=
  {| API_KEY := Some (lit "key");
     generateContent := fun _ => inr emptyReply;
     aistudio := None;
     mammoth := None;
     docx := false; saveAs := false; pdfMake := false;
     Date_now := 1700000000000;
     URL_hostname := hostnameOf |}.

(** A world whose every call to the model fails with [e]. *)
Definition worldFailing (e : JsError) : Env :=
  {| API_KEY := Some (lit "key");
     generateContent := fun _ => inl e;
     aistudio := None;
     mammoth := None;
     docx := true; saveAs := true; pdfMake := true;
     Date_now := 1700000000000;
     URL_hostname := hostnameOf |}.

Definition chunk (u : option jsstring) : GroundingChunk :=
  {| web := Some {| uri := u |} |}.

(** [{uri:a}, {uri:null}, {uri:a}, {uri:b}, {uri:c}, {uri:d}] *)
Definition sixChunks : list GroundingChunk :=
  [ chunk (Some (lit "https://a")); chunk None; chunk (Some (lit "https://a"));
    chunk (Some (lit "https://b")); chunk (Some (lit "https://c"));
    chunk (Some (lit "https://d")) ].

Definition groundedReply (definition : option jsstring) (chunks : list GroundingChunk)
  : GenerateContentResponse :=
  {| response_text := definition;
     candidates := Some [ {| content := None;
                             groundingMetadata := Some {| groundingChunks := Some chunks |} |} ] |}.

Definition replyWithParts (ps : list Part) : GenerateContentResponse :=
  {| response_text := None;
     candidates := Some [ {| content := Some {| parts := Some ps |};
                             groundingMetadata := None |} ] |}.

(** A caption followed by two images: a JPEG, then a PNG. *)
Definition captionThenTwoImages : list Part :=
  [ textPart (lit "Here is the image.");
    inlinePart {| Genai.mimeType := Some (lit "image/jpeg");
                  Genai.data := Some (lit "Zmlyc3Q=") |};
    inlinePart {| Genai.mimeType := Some (lit "image/png");
                  Genai.data := Some (lit "c2Vjb25k") |} ].

Definition lookingUp (term : jsstring) : State := setTermQuery term initialState.

(** Two spaces, a line feed, a tab and a no-break space. *)
Definition spaces : jsstring := lit "  " ++ nl ++ [9; 160].

Definition blankText : TextTranslationPanel.State :=
  {| TextTranslationPanel.input := spaces;
     TextTranslationPanel.output := [];
     TextTranslationPanel.speed := DEEP;
     TextTranslationPanel.loading := false;
     TextTranslationPanel.termQuery := [];
     TextTranslationPanel.termDefinition := None;
     TextTranslationPanel.definingTerm := false |}.

Definition blankPrompt : ImageGenerationPanel.State :=
  {| ImageGenerationPanel.prompt := spaces;
     ImageGenerationPanel.size := SIZE_2K;
     ImageGenerationPanel.loading := false;
     ImageGenerationPanel.generatedImage := None;
     ImageGenerationPanel.error := None |}.

Definition fileNamed (n ty : string) : Browser.File :=
  {| Browser.name := lit n; Browser.type := lit ty;
     Browser.dataURL := Some (lit "data:" ++ lit ty ++ lit ";base64,QUJD");
     Browser.arrayBuffer := inr [80; 75; 3; 4];
     Browser.text := inr (lit "file text") |}.

(** A panel holding an imported PDF, some typed context and a translation. *)
Definition afterPdf : State :=
  {| input := lit "keep the footnotes"; output := lit "Hello" ++ nl ++ lit "World";
     speed := DEEP; loading := false; termQuery := []; termDefinition := None;
     definingTerm := false;
     attachment := Some {| data := lit "data:application/pdf;base64,QUJD";
                           mimeType := lit "application/pdf";
                           name := lit "essay.pdf" |};
     sourceFormat := fmt_pdf |}.

(** A panel showing a translation of a DOCX import. *)
Definition afterDocx : State :=
  {| input := lit "Satir1"; output := lit "Line1" ++ nl ++ lit "Line2";
     speed := FAST; loading := false; termQuery := []; termDefinition := None;
     definingTerm := false; attachment := None; sourceFormat := fmt_docx |}.

(** A world without a configured key. *)
Definition worldWithoutKey : Env :=
  {| API_KEY := None;
     generateContent := fun _ => inr emptyReply;
     aistudio := None;
     mammoth := None;
     docx := true; saveAs := true; pdfMake := true;
     Date_now := 1700000000000;
     URL_hostname := hostnameOf |}.

(** A world in AI Studio where no key gets selected, even after the dialog,
    while the environment still provides one. *)
Definition worldDecliningKeyDialog (reply : GenerateContentResponse) : Env :=
  {| API_KEY := Some (lit "key");
     generateContent := fun _ => inr reply;
     aistudio := Some {| hasSelectedApiKey := inr false; openSelectKey := inr tt;
                         hasSelectedApiKey_after := inr false |};
     mammoth := None;
     docx := true; saveAs := true; pdfMake := true;
     Date_now := 1700000000000;
     URL_hostname := hostnameOf |}.

(** A world in AI Studio whose key flow rejects with [e]. *)
Definition worldWithBrokenKeyFlow (e : JsError) : Env :=
  {| API_KEY := Some (lit "key");
     generateContent := fun _ => inr emptyReply;
     aistudio := Some {| hasSelectedApiKey := inl e; openSelectKey := inr tt;
                         hasSelectedApiKey_after := inr true |};
     mammoth := None;
     docx := true; saveAs := true; pdfMake := true;
     Date_now := 1700000000000;
     URL_hostname := hostnameOf |}.

Definition typed (text : jsstring) : State := setInput text initialState.

Definition cavePrompt : ImageGenerationPanel.State :=
  {| ImageGenerationPanel.prompt := lit "The allegory of the cave";
     ImageGenerationPanel.size := SIZE_1K;
     ImageGenerationPanel.loading := false;
     ImageGenerationPanel.generatedImage := Some (lit "data:image/png;base64,b2xk");
     ImageGenerationPanel.error := None |}.

Definition holding (file : Browser.File) : ImageAnalysisPanel.State :=
  ImageAnalysisPanel.handleFileSelect (Some file) ImageAnalysisPanel.initialState.

(** A file whose read fails. *)
Definition unreadable (n ty : string) : Browser.File :=
  {| Browser.name := lit n; Browser.type := lit ty;
     Browser.dataURL := None;
     Browser.arrayBuffer := inl {| message := None |};
     Browser.text := inl {| message := None |} |}.

End Examples.

(* ===================================================================== *)
(** * Properties *)
(* ===================================================================== *)

Import TranslationPanel.

(** ** Strings *)

Lemma str_eqb_refl (a : jsstring) : str_eqb a a = true.
Proof.
  induction a as [|x a IH]; simpl; [reflexivity|].
  now rewrite N.eqb_refl, IH.
Qed.

Lemma str_eqb_eq (a b : jsstring) : str_eqb a b = true <-> a = b.
Proof.
  split.
  - revert b. induction a as [|x a IH]; intros [|y b]; simpl; try discriminate; auto.
    intros H. apply andb_true_iff in H as [Hx Hab].
    apply N.eqb_eq in Hx. subst. f_equal. now apply IH.
  - intros ->. apply str_eqb_refl.
Qed.


Lemma trimStart_nil_iff (s : jsstring) : trimStart s = [] <-> blank s = true.
Proof.
  induction s as [|c s IH]; simpl; [tauto|].
  destruct (isWhiteSpace c) eqn:E; simpl; [exact IH|].
  split; discriminate.
Qed.

Lemma blank_app (a b : jsstring) : blank (a ++ b) = blank a && blank b.
Proof. unfold blank. apply forallb_app. Qed.

Lemma blank_rev (s : jsstring) : blank (rev s) = blank s.
Proof.
  induction s as [|c s IH]; simpl; [reflexivity|].
  rewrite blank_app, IH. simpl. rewrite andb_true_r. apply andb_comm.
Qed.

Lemma trimStart_head (s : jsstring) c r :
  trimStart s = c :: r -> isWhiteSpace c = false.
Proof.
  induction s as [|x s IH]; simpl; [discriminate|].
  destruct (isWhiteSpace x) eqn:E; [exact IH|].
  intros H. injection H as -> _. exact E.
Qed.

(** [trim] returns the empty string exactly on blank strings. *)
Lemma trim_nil_iff (s : jsstring) : trim s = [] <-> blank s = true.
Proof.
  unfold trim, trimEnd. split.
  - intros H. apply trimStart_nil_iff.
    destruct (trimStart s) as [|c r] eqn:E; [reflexivity|exfalso].
    apply (f_equal (@rev N)) in H. rewrite rev_involutive in H.
    change (rev (@nil N)) with (@nil N) in H.
    apply trimStart_nil_iff in H. rewrite blank_rev in H.
    simpl in H. rewrite (trimStart_head _ _ _ E) in H. discriminate.
  - intros H. apply trimStart_nil_iff in H. rewrite H. reflexivity.
Qed.

Lemma truthy_trim (s : jsstring) : truthy (trim s) = negb (blank s).
Proof.
  destruct (blank s) eqn:B.
  - apply trim_nil_iff in B. now rewrite B.
  - destruct (trim s) eqn:T; [|reflexivity].
    apply trim_nil_iff in T. congruence.
Qed.

(** ** Running a computation *)

(** Expose the pair a computation of [Eff] denotes, without unfolding the
    strings and requests inside it. *)
Ltac run_eff :=
  unfold callModel, bind, ret, try_catch, throw, emit, outcome, trace;
  cbn [fst snd].

(** ** The client *)

Lemma getAiClient_keyed env key :
  API_KEY env = Some key -> truthy key = true -> Gemini.getAiClient env = ret key.
Proof. intros H T. unfold Gemini.getAiClient. now rewrite H, T. Qed.

Lemma getAiClient_calls_nothing env : networkCalls (trace (Gemini.getAiClient env)) = [].
Proof.
  unfold Gemini.getAiClient.
  destruct (API_KEY env) as [k|]; [destruct (truthy k)|]; reflexivity.
Qed.

(** ** Replies of the services when the model answers *)

Lemma rendered_first_three env (td : TermDefinition) :
  renderedSources env td = renderLinks env (firstn 3 (urls td)).
Proof.
  unfold renderedSources, slice0. destruct (urls td); reflexivity.
Qed.

(** The links of a render that succeeds carry the URLs, one by one, each
    with the host name the parser gives it. *)
Lemma renderLinks_links env (us : list jsstring) links :
  renderLinks env us = inr links ->
  map href links = us /\
  forall l, In l links -> URL_hostname env (href l) = inr (hostname l).
Proof.
  revert links. induction us as [|u us IH]; intros links; cbn [renderLinks].
  - intros E. injection E as <-. split; [reflexivity|intros l []].
  - destruct (URL_hostname env u) as [e|host] eqn:H; [discriminate|].
    destruct (renderLinks env us) as [e|ls]; [discriminate|].
    intros E. injection E as <-. destruct (IH ls eq_refl) as (M & P).
    split; [cbn; now rewrite M|].
    intros l [<-|I]; [exact H|now apply P].
Qed.

Lemma renderLinks_succeeds env (us : list jsstring) :
  (forall u, In u us -> exists host, URL_hostname env u = inr host) ->
  exists links, renderLinks env us = inr links.
Proof.
  induction us as [|u us IH]; intros H; cbn [renderLinks]; [now exists []|].
  destruct (H u (or_introl eq_refl)) as (host & ->).
  destruct IH as (ls & ->); [intros v I; apply H; now right|].
  now eexists.
Qed.

Lemma renderLinks_throws env (us : list jsstring) u e :
  In u us -> URL_hostname env u = inl e -> exists e', renderLinks env us = inl e'.
Proof.
  induction us as [|v us IH]; intros I H; [destruct I|].
  cbn [renderLinks]. destruct I as [->|I].
  - rewrite H. now exists e.
  - destruct (URL_hostname env v) as [e1|host]; [now exists e1|].
    destruct (IH I H) as (e' & ->). now exists e'.
Qed.

Lemma defineTerm_replied env key term reply :
  API_KEY env = Some key -> truthy key = true ->
  generateContent env (Gemini.defineTermRequest term) = inr reply ->
  Gemini.defineTerm env term =
    ([GenerateContent key (Gemini.defineTermRequest term)],
     inr {| Gemini.definition := response_text reply;
            Gemini.urls := Gemini.extractUrls (Gemini.groundingChunksOf reply) |}).
Proof.
  intros K T R. unfold Gemini.defineTerm.
  rewrite (getAiClient_keyed _ _ K T). unfold callModel. simpl. rewrite R. reflexivity.
Qed.

(** ** Term lookup *)

(** C1 (amended): for the term lookup, the links shown are made from the
    first three URIs of the reply's grounding chunks, taken in encounter
    order after the chunks without a (non-empty) URI have been dropped;
    duplicates are kept.  Each link has the URI as its target and the host
    name the URL parser gives it as its text; the list is rendered when the
    parser accepts each of the three, and the render throws as soon as it
    refuses one.  For the chunks [{uri:a}, {uri:null}, {uri:a}, {uri:b},
    {uri:c}, {uri:d}], a and b being absolute URLs, the result is exactly
    the links to [a, a, b]. *)
Theorem term_lookup_shows_first_three_urls :
  forall env st key reply,
    API_KEY env = Some key -> truthy key = true ->
    blank (termQuery st) = false ->
    generateContent env (Gemini.defineTermRequest (termQuery st)) = inr reply ->
    (forall links,
       displayedSources env (fst (handleDefineTerm env st)) = inr links ->
       map href links = firstn 3 (Gemini.extractUrls (Gemini.groundingChunksOf reply)) /\
       forall l, In l links -> URL_hostname env (href l) = inr (hostname l)) /\
    ((forall u,
        In u (firstn 3 (Gemini.extractUrls (Gemini.groundingChunksOf reply))) ->
        exists host, URL_hostname env u = inr host) ->
     exists links, displayedSources env (fst (handleDefineTerm env st)) = inr links) /\
    (forall u e,
       In u (firstn 3 (Gemini.extractUrls (Gemini.groundingChunksOf reply))) ->
       URL_hostname env u = inl e ->
       exists e', displayedSources env (fst (handleDefineTerm env st)) = inl e') /\
    (forall hostA hostB,
       Gemini.groundingChunksOf reply = Examples.sixChunks ->
       URL_hostname env (lit "https://a") = inr hostA ->
       URL_hostname env (lit "https://b") = inr hostB ->
       displayedSources env (fst (handleDefineTerm env st))
         = inr [ {| href := lit "https://a"; hostname := hostA |};
                 {| href := lit "https://a"; hostname := hostA |};
                 {| href := lit "https://b"; hostname := hostB |} ]).
Proof.
  intros env st key reply K T B R.
  assert (E : displayedSources env (fst (handleDefineTerm env st))
              = renderLinks env
                  (firstn 3 (Gemini.extractUrls (Gemini.groundingChunksOf reply)))).
  { unfold handleDefineTerm. rewrite truthy_trim, B. cbn [negb].
    rewrite (defineTerm_replied _ _ _ _ K T R).
    unfold outcome, trace, displayedSources.
    cbn [fst snd termDefinition setDefiningTerm setTermDefinition].
    now rewrite rendered_first_three. }
  rewrite E. split; [|split; [|split]].
  - intros links. apply renderLinks_links.
  - apply renderLinks_succeeds.
  - intros u e. apply renderLinks_throws.
  - intros hostA hostB C A Bb. rewrite C.
    change (firstn 3 (Gemini.extractUrls Examples.sixChunks))
      with [lit "https://a"; lit "https://a"; lit "https://b"].
    cbn [renderLinks]. now rewrite A, Bb.
Qed.

Lemma term_lookup_shows_first_three_urls_witness :
  displayedSources
    (Examples.worldReplying
       (Examples.groundedReply (Some (lit "The spirit of the age.")) Examples.sixChunks))
    (fst (handleDefineTerm
            (Examples.worldReplying
               (Examples.groundedReply (Some (lit "The spirit of the age.")) Examples.sixChunks))
            (Examples.lookingUp (lit "Zeitgeist"))))
  = inr [ {| href := lit "https://a"; hostname := lit "a" |};
          {| href := lit "https://a"; hostname := lit "a" |};
          {| href := lit "https://b"; hostname := lit "b" |} ].
Proof.
  destruct (term_lookup_shows_first_three_urls
              (Examples.worldReplying
                 (Examples.groundedReply (Some (lit "The spirit of the age."))
                    Examples.sixChunks))
              (Examples.lookingUp (lit "Zeitgeist")) (lit "key")
              (Examples.groundedReply (Some (lit "The spirit of the age."))
                 Examples.sixChunks)
              eq_refl eq_refl eq_refl eq_refl) as (_ & _ & _ & Six).
  exact (Six (lit "a") (lit "b") eq_refl eq_refl eq_refl).
Defined.

(** C1 as stated fails: on the six chunks the panel does not show the
    links to [a, b, c]; the repeated [a] is not removed. *)
Lemma term_lookup_does_not_deduplicate :
  ~ exists links,
      displayedSources
        (Examples.worldReplying
           (Examples.groundedReply (Some (lit "The spirit of the age.")) Examples.sixChunks))
        (fst (handleDefineTerm
                (Examples.worldReplying
                   (Examples.groundedReply (Some (lit "The spirit of the age."))
                      Examples.sixChunks))
                (Examples.lookingUp (lit "Zeitgeist"))))
      = inr links
      /\ map href links = [lit "https://a"; lit "https://b"; lit "https://c"].
Proof.
  intros (links & E & M). vm_compute in E. injection E as <-.
  vm_compute in M. discriminate M.
Qed.

(** ** Empty submissions *)

(** C2: whatever the mode, a submission with blank (empty or all white
    space) text and no attachment leaves the handler before anything is
    built or sent: the state is unchanged and the trace is empty, so it holds
    no network call.  Fast and deep translation are [handleTranslate] under
    either [speed]; term lookup is [handleDefineTerm]; image generation is
    [handleGenerate]; analysis, whose only input is the image, is
    [handleAnalyze].  The text-only variant of the translation panel, which
    has no attachment, behaves in the same way. *)
Theorem blank_submission_sends_nothing :
  forall env,
    (forall st, blank (input st) = true -> attachment st = None ->
                handleTranslate env st = (st, [])) /\
    (forall st, blank (termQuery st) = true ->
                handleDefineTerm env st = (st, [])) /\
    (forall st, blank (ImageGenerationPanel.prompt st) = true ->
                ImageGenerationPanel.handleGenerate env st = (st, [])) /\
    (forall st, ImageAnalysisPanel.selectedFile st = None ->
                ImageAnalysisPanel.handleAnalyze env st = (st, [])) /\
    (forall st, blank (TextTranslationPanel.input st) = true ->
                TextTranslationPanel.handleTranslate env st = (st, [])).
Proof.
  intros env. split; [|split; [|split; [|split]]].
  - intros st B A. unfold handleTranslate. now rewrite truthy_trim, B, A.
  - intros st B. unfold handleDefineTerm. now rewrite truthy_trim, B.
  - intros st B. unfold ImageGenerationPanel.handleGenerate. now rewrite truthy_trim, B.
  - intros st A. unfold ImageAnalysisPanel.handleAnalyze. now rewrite A.
  - intros st B. unfold TextTranslationPanel.handleTranslate. now rewrite truthy_trim, B.
Qed.

Lemma blank_submission_sends_nothing_witness :
  handleTranslate (Examples.worldReplying Examples.emptyReply)
    (setSpeed FAST (setInput Examples.spaces initialState))
  = (setSpeed FAST (setInput Examples.spaces initialState), [])
  /\ handleTranslate (Examples.worldReplying Examples.emptyReply)
       (setSpeed DEEP (setInput Examples.spaces initialState))
     = (setSpeed DEEP (setInput Examples.spaces initialState), [])
  /\ handleDefineTerm (Examples.worldReplying Examples.emptyReply)
       (setTermQuery Examples.spaces initialState)
     = (setTermQuery Examples.spaces initialState, [])
  /\ ImageGenerationPanel.handleGenerate (Examples.worldReplying Examples.emptyReply)
       Examples.blankPrompt
     = (Examples.blankPrompt, [])
  /\ ImageAnalysisPanel.handleAnalyze (Examples.worldReplying Examples.emptyReply)
       ImageAnalysisPanel.initialState
     = (ImageAnalysisPanel.initialState, [])
  /\ TextTranslationPanel.handleTranslate (Examples.worldReplying Examples.emptyReply)
       Examples.blankText
     = (Examples.blankText, []).
Proof.
  destruct (blank_submission_sends_nothing (Examples.worldReplying Examples.emptyReply))
    as (T & D & G & A & L).
  split; [|split; [|split; [|split; [|split]]]].
  - apply T; reflexivity.
  - apply T; reflexivity.
  - apply D; reflexivity.
  - apply G; reflexivity.
  - apply A; reflexivity.
  - apply L; reflexivity.
Defined.

(** The guard lives in the handlers: called on its own, [translateContent]
    builds and sends a request even for an empty text without attachment. *)
Remark translateContent_is_guarded_by_its_caller :
  networkCalls
    (trace (Gemini.translateContent (Examples.worldReplying Examples.emptyReply) [] None FAST))
  = [GenerateContent (lit "key") (Gemini.translateRequest [] None FAST)].
Proof. reflexivity. Qed.

(** ** Export *)

Lemma split_cons (sep : N) (s : jsstring) : exists w ws, split sep s = w :: ws.
Proof.
  destruct s as [|c s]; simpl; [now eauto|].
  destruct (c =? sep); [now eauto|].
  destruct (split sep s); eauto.
Qed.

(** Joining the pieces with the separator gives the string back. *)
Lemma join_split (sep : N) (s : jsstring) : join sep (split sep s) = s.
Proof.
  induction s as [|c s IH]; [reflexivity|].
  simpl. destruct (N.eqb_spec c sep) as [->|Hne].
  - destruct (split_cons sep s) as (w & ws & E). rewrite E in *.
    simpl. simpl in IH. now rewrite IH.
  - destruct (split_cons sep s) as (w & ws & E). rewrite E in *.
    destruct ws as [|w' ws]; simpl in *; now rewrite IH.
Qed.

(** No piece contains the separator. *)
Lemma split_pieces (sep : N) (s : jsstring) :
  Forall (fun w => ~ In sep w) (split sep s).
Proof.
  induction s as [|c s IH]; simpl.
  - constructor; [intros []|constructor].
  - destruct (N.eqb_spec c sep) as [->|Hne].
    + constructor; [intros []|exact IH].
    + destruct (split sep s) as [|w ws]; [constructor; [|constructor]|].
      * intros [H|[]]. congruence.
      * inversion IH as [|? ? Hw Hws]; subst. constructor; [|exact Hws].
        intros [H|H]; [congruence|contradiction].
Qed.

(** There is one piece more than there are separators. *)
Lemma split_length (sep : N) (s : jsstring) :
  List.length (split sep s) = S (count_occ N.eq_dec s sep).
Proof.
  induction s as [|c s IH]; [reflexivity|].
  simpl. destruct (N.eqb_spec c sep) as [->|Hne].
  - destruct (N.eq_dec sep sep); [|contradiction]. simpl. now rewrite IH.
  - destruct (N.eq_dec c sep); [contradiction|].
    destruct (split_cons sep s) as (w & ws & E). rewrite E in *. exact IH.
Qed.

(** Nothing is exported while there is no output. *)
Remark handleDownload_without_output env st :
  output st = [] -> handleDownload env st = [].
Proof. intros H. unfold handleDownload. now rewrite H. Qed.

(** C3 (amended): given source format "docx", a non-empty final text, and
    the docx and saveAs libraries present on the window, the export is one
    ".docx" download of a document with a single section whose children are
    the lines of the text, split at line feeds, each line in one paragraph of
    one text run with spacing [after: 200]; so there is one paragraph more
    than there are line feeds, and "Line1\nLine2" gives exactly the two
    paragraphs for "Line1" and "Line2". *)
Theorem docx_export_one_paragraph_per_line :
  forall env st,
    sourceFormat st = fmt_docx -> truthy (output st) = true ->
    docx env = true -> saveAs env = true ->
    exists paragraphs,
      handleDownload env st =
        [SaveAs (PackedDocx {| Docx.sections := [ {| Docx.section_children := paragraphs |} ] |})
                (lit "translation-" ++ decimal (Date_now env) ++ lit ".docx")]
      /\ paragraphs =
           map (fun line => {| Docx.children := [ {| Docx.run := line |} ];
                               Docx.spacing := {| Docx.after := 200 |} |})
               (split 10 (output st))
      /\ join 10 (split 10 (output st)) = output st
      /\ Forall (fun line => ~ In 10 line) (split 10 (output st))
      /\ List.length paragraphs = S (count_occ N.eq_dec (output st) 10)
      /\ (output st = lit "Line1" ++ nl ++ lit "Line2" ->
          paragraphs = [paragraphOf (lit "Line1"); paragraphOf (lit "Line2")]).
Proof.
  intros env st F O D S.
  exists (map paragraphOf (split 10 (output st))).
  split; [|split; [|split; [|split; [|split]]]].
  - unfold handleDownload. rewrite O, F, D, S. cbn [negb format_eqb andb].
    unfold docxDocument. now rewrite <- app_assoc.
  - reflexivity.
  - apply join_split.
  - apply split_pieces.
  - rewrite length_map. apply split_length.
  - intros ->. reflexivity.
Qed.

Lemma docx_export_one_paragraph_per_line_witness :
  exists paragraphs,
    handleDownload (Examples.worldReplying Examples.emptyReply) Examples.afterDocx =
      [SaveAs (PackedDocx {| Docx.sections := [ {| Docx.section_children := paragraphs |} ] |})
              (lit "translation-1700000000000.docx")]
    /\ paragraphs = [paragraphOf (lit "Line1"); paragraphOf (lit "Line2")].
Proof.
  destruct (docx_export_one_paragraph_per_line
              (Examples.worldReplying Examples.emptyReply) Examples.afterDocx
              eq_refl eq_refl eq_refl eq_refl)
    as (ps & E & _ & _ & _ & _ & L).
  exists ps. split; [exact E | apply L; reflexivity].
Defined.

(** C3 as stated fails: with source format "docx" and the text
    "Line1\nLine2", a window on which the docx library has not loaded gets no
    paragraph-document at all (the export falls back to plain text). *)
Lemma docx_export_needs_the_library :
  ~ exists doc filename,
      In (SaveAs (PackedDocx doc) filename)
         (handleDownload Examples.worldWithoutLibraries Examples.afterDocx).
Proof.
  intros (doc & filename & H). vm_compute in H.
  destruct H as [H|[]]. discriminate H.
Qed.

(** C4 (amended): given source format "pdf", a non-empty final text, and
    the pdfMake library present on the window, the export is one ".pdf"
    download of a document definition whose content is the header block
    "Translation" followed by exactly one body block holding the whole text,
    line feeds included; the header style is bold with font size 18, the body
    style has the smaller font size 12 and line height 1.5. *)
Theorem pdf_export_single_body_block :
  forall env st,
    sourceFormat st = fmt_pdf -> truthy (output st) = true -> pdfMake env = true ->
    exists def header body,
      handleDownload env st =
        [PdfDownload def (lit "translation-" ++ decimal (Date_now env) ++ lit ".pdf")]
      /\ PdfMake.content def =
           [ {| PdfMake.text := lit "Translation"; PdfMake.style := lit "header" |};
             {| PdfMake.text := output st; PdfMake.style := lit "body" |} ]
      /\ PdfMake.lookupStyle (PdfMake.styles def) (lit "header") = Some header
      /\ PdfMake.lookupStyle (PdfMake.styles def) (lit "body") = Some body
      /\ PdfMake.fontSize header = 18 /\ PdfMake.bold header = Some true
      /\ PdfMake.fontSize body = 12 /\ PdfMake.lineHeight body = Some (3 # 2)%Q
      /\ PdfMake.fontSize body < PdfMake.fontSize header.
Proof.
  intros env st F O P.
  eexists (docDefinition (output st)), _, _.
  split; [|repeat split; try reflexivity].
  unfold handleDownload. rewrite O, F, P. cbn [negb format_eqb andb].
  now rewrite <- app_assoc.
Qed.

Lemma pdf_export_single_body_block_witness :
  exists def,
    handleDownload (Examples.worldReplying Examples.emptyReply) Examples.afterPdf =
      [PdfDownload def (lit "translation-1700000000000.pdf")]
    /\ PdfMake.content def =
         [ {| PdfMake.text := lit "Translation"; PdfMake.style := lit "header" |};
           {| PdfMake.text := lit "Hello" ++ nl ++ lit "World";
              PdfMake.style := lit "body" |} ].
Proof.
  destruct (pdf_export_single_body_block
              (Examples.worldReplying Examples.emptyReply) Examples.afterPdf
              eq_refl eq_refl eq_refl)
    as (def & h & b & E & C & _).
  exists def. split; [exact E | exact C].
Defined.

(** C4 as stated fails: with source format "pdf" and the text
    "Hello\nWorld", a window on which pdfMake has not loaded gets no
    paginated document at all (the export falls back to plain text). *)
Lemma pdf_export_needs_the_library :
  ~ exists def filename,
      In (PdfDownload def filename)
         (handleDownload Examples.worldWithoutLibraries Examples.afterPdf).
Proof.
  intros (def & filename & H). vm_compute in H.
  destruct H as [H|[]]. discriminate H.
Qed.

(** ** Import *)





(** C5 (amended): a file that is neither a PDF or image, nor named *.docx,
    nor of a text type or text extension (".xyz", say) is rejected with the
    "Unsupported file type" notice: no attachment is produced and the
    attachment, the text input and every other cell of the panel keep their
    values, nothing is sent -- except that the source format kept for export
    has already been set from the offered file, to plain text. *)
Theorem unsupported_file_is_rejected :
  forall env file st,
    isUnsupported file = true ->
    handleFileSelect env (Some file) st =
      (setSourceFormat fmt_text st,
       [Alert (lit "Unsupported file type. Please upload PDF, DOCX, Text, or Image files.");
        ResetFileInput])
    /\ attachment (fst (handleFileSelect env (Some file) st)) = attachment st
    /\ input (fst (handleFileSelect env (Some file) st)) = input st
    /\ output (fst (handleFileSelect env (Some file) st)) = output st
    /\ sourceFormat (fst (handleFileSelect env (Some file) st)) = fmt_text
    /\ networkCalls (snd (handleFileSelect env (Some file) st)) = [].
Proof.
  intros env file st U.
  assert (E : handleFileSelect env (Some file) st =
      (setSourceFormat fmt_text st,
       [Alert (lit "Unsupported file type. Please upload PDF, DOCX, Text, or Image files.");
        ResetFileInput])).
  { unfold isUnsupported, isBinaryType, isTextLike in U.
    apply andb_true_iff in U as [U T]. apply andb_true_iff in U as [B D].
    apply negb_true_iff in B, D, T.
    unfold handleFileSelect, detectSourceFormat. rewrite B, D, T.
    apply orb_false_iff in B as [P _]. now rewrite P. }
  rewrite E. repeat split.
Qed.

Lemma unsupported_file_is_rejected_witness :
  attachment (fst (handleFileSelect Examples.worldWithoutLibraries
                     (Some (Examples.fileNamed "notes.xyz" "application/octet-stream"))
                     Examples.afterPdf))
  = attachment Examples.afterPdf.
Proof.
  exact (proj1 (proj2 (unsupported_file_is_rejected Examples.worldWithoutLibraries
                         (Examples.fileNamed "notes.xyz" "application/octet-stream")
                         Examples.afterPdf eq_refl))).
Defined.

(** C5 as stated fails: offering "notes.xyz" to a panel that holds an
    imported PDF changes the panel state, namely the source format kept for
    export, which drops from "pdf" to "text". *)
Lemma unsupported_file_resets_source_format :
  sourceFormat (fst (handleFileSelect Examples.worldWithoutLibraries
                       (Some (Examples.fileNamed "notes.xyz" "application/octet-stream"))
                       Examples.afterPdf))
  <> sourceFormat Examples.afterPdf.
Proof. vm_compute. discriminate. Qed.

(** ** Source format *)

Section SourceFormatFrame.

Variable env : Env.

Lemma handleTranslate_format st :
  sourceFormat (fst (handleTranslate env st)) = sourceFormat st.
Proof.
  unfold handleTranslate.
  destruct (negb (truthy (trim (input st))) && negb (defined (attachment st)));
    [reflexivity|].
  cbn [fst]. destruct (outcome _); reflexivity.
Qed.




End SourceFormatFrame.

(** A picker closed without a file changes nothing: the format then stays
    what it was. *)
Remark handleFileSelect_without_file env st : handleFileSelect env None st = (st, []).
Proof. reflexivity. Qed.







(** ** Attachment or imported text *)

(** C10: an import that succeeds leaves either a binary attachment or an
    imported text, not both.  A PDF or image whose read succeeds becomes the
    attachment and the text input is cleared, whatever was typed before; a
    DOCX whose text is extracted, or a text file whose text is read, replaces
    the text input with that text and clears the attachment, whatever was
    attached before.  Hence after any successful import the attachment is
    absent or the text input is empty. *)
Theorem import_leaves_attachment_or_text :
  forall env file st,
    (forall res,
       isBinaryType file = true -> Browser.dataURL file = Some res ->
       attachment (fst (handleFileSelect env (Some file) st))
         = Some {| data := res; mimeType := Browser.type file; name := Browser.name file |}
       /\ input (fst (handleFileSelect env (Some file) st)) = []) /\
    (forall buf extractRawText value,
       isBinaryType file = false -> isDocxName (Browser.name file) = true ->
       Browser.arrayBuffer file = inr buf -> mammoth env = Some extractRawText ->
       extractRawText buf = inr value ->
       input (fst (handleFileSelect env (Some file) st)) = value
       /\ attachment (fst (handleFileSelect env (Some file) st)) = None) /\
    (forall contents,
       isBinaryType file = false -> isDocxName (Browser.name file) = false ->
       isTextLike file = true -> Browser.text file = inr contents ->
       input (fst (handleFileSelect env (Some file) st)) = contents
       /\ attachment (fst (handleFileSelect env (Some file) st)) = None) /\
    (importSucceeds env file = true ->
       attachment (fst (handleFileSelect env (Some file) st)) = None
       \/ input (fst (handleFileSelect env (Some file) st)) = []).
Proof.
  intros env file st.
  assert (B1 : forall res,
       isBinaryType file = true -> Browser.dataURL file = Some res ->
       attachment (fst (handleFileSelect env (Some file) st))
         = Some {| data := res; mimeType := Browser.type file; name := Browser.name file |}
       /\ input (fst (handleFileSelect env (Some file) st)) = []).
  { intros res B R. unfold isBinaryType in B. unfold handleFileSelect.
    rewrite B, R. split; reflexivity. }
  assert (B2 : forall buf extractRawText value,
       isBinaryType file = false -> isDocxName (Browser.name file) = true ->
       Browser.arrayBuffer file = inr buf -> mammoth env = Some extractRawText ->
       extractRawText buf = inr value ->
       input (fst (handleFileSelect env (Some file) st)) = value
       /\ attachment (fst (handleFileSelect env (Some file) st)) = None).
  { intros buf ex value B D A M X. unfold isBinaryType in B. unfold handleFileSelect.
    rewrite B, D, A, M, X. split; reflexivity. }
  assert (B3 : forall contents,
       isBinaryType file = false -> isDocxName (Browser.name file) = false ->
       isTextLike file = true -> Browser.text file = inr contents ->
       input (fst (handleFileSelect env (Some file) st)) = contents
       /\ attachment (fst (handleFileSelect env (Some file) st)) = None).
  { intros contents B D T X. unfold isBinaryType in B. unfold isTextLike in T.
    unfold handleFileSelect. rewrite B, D, T, X. split; reflexivity. }
  split; [exact B1|]. split; [exact B2|]. split; [exact B3|].
  unfold importSucceeds. intros S.
  destruct (isBinaryType file) eqn:B.
  - destruct (Browser.dataURL file) as [res|] eqn:R; [|discriminate S].
    right. now apply (B1 res).
  - destruct (isDocxName (Browser.name file)) eqn:D.
    + destruct (Browser.arrayBuffer file) as [e|buf] eqn:A; [discriminate S|].
      destruct (mammoth env) as [ex|] eqn:M; [|discriminate S].
      destruct (ex buf) as [e|value] eqn:X; [discriminate S|].
      left. now apply (B2 buf ex value).
    + destruct (isTextLike file) eqn:T; [|discriminate S].
      destruct (Browser.text file) as [e|contents] eqn:X; [discriminate S|].
      left. now apply (B3 contents).
Qed.

Lemma import_leaves_attachment_or_text_witness :
  input (fst (handleFileSelect (Examples.worldReplying Examples.emptyReply)
                (Some (Examples.fileNamed "scan.png" "image/png"))
                Examples.afterDocx)) = []
  /\ attachment (fst (handleFileSelect (Examples.worldReplying Examples.emptyReply)
                        (Some (Examples.fileNamed "essay.docx" "application/msword"))
                        Examples.afterPdf)) = None
  /\ attachment (fst (handleFileSelect (Examples.worldReplying Examples.emptyReply)
                        (Some (Examples.fileNamed "notes.md" "text/markdown"))
                        Examples.afterPdf)) = None.
Proof.
  split; [|split].
  - destruct (import_leaves_attachment_or_text (Examples.worldReplying Examples.emptyReply)
                (Examples.fileNamed "scan.png" "image/png") Examples.afterDocx)
      as (B & _).
    exact (proj2 (B _ eq_refl eq_refl)).
  - destruct (import_leaves_attachment_or_text (Examples.worldReplying Examples.emptyReply)
                (Examples.fileNamed "essay.docx" "application/msword") Examples.afterPdf)
      as (_ & D & _).
    exact (proj2 (D _ _ _ eq_refl eq_refl eq_refl eq_refl eq_refl)).
  - destruct (import_leaves_attachment_or_text (Examples.worldReplying Examples.emptyReply)
                (Examples.fileNamed "notes.md" "text/markdown") Examples.afterPdf)
      as (_ & _ & T & _).
    exact (proj2 (T _ eq_refl eq_refl eq_refl eq_refl)).
Defined.

(** ** Translation requests *)

Lemma translateContent_trace env text attachment speed :
  trace (Gemini.translateContent env text attachment speed) =
    match API_KEY env with
    | Some key =>
        if truthy key then
          GenerateContent key (Gemini.translateRequest text attachment speed) ::
          match generateContent env (Gemini.translateRequest text attachment speed) with
          | inl e => [ConsoleError (Some (lit "Translation Error:")) (Some e)]
          | inr _ => []
          end
        else [ConsoleError (Some (lit "API Key not found in environment")) None]
    | None => [ConsoleError (Some (lit "API Key not found in environment")) None]
    end.
Proof.
  unfold Gemini.translateContent, Gemini.getAiClient.
  destruct (API_KEY env) as [key|]; [|reflexivity].
  destruct (truthy key); [|reflexivity].
  unfold callModel. cbn.
  destruct (generateContent env _); reflexivity.
Qed.

(** C6: for the same text and attachment, the request built for deep
    translation carries a thinking budget (32768) and the one built for fast
    translation carries none; both carry the translator system instruction
    and the same contents, and they name different models.  These are the
    requests [translateContent] sends: it sends nothing else, and with a key
    present it does send them. *)
Theorem deep_translation_alone_has_a_thinking_budget :
  forall text attachment,
    thinkingConfig (config (Gemini.translateRequest text attachment DEEP))
      = Some {| thinkingBudget := 32768 |} /\
    thinkingConfig (config (Gemini.translateRequest text attachment FAST)) = None /\
    systemInstruction (config (Gemini.translateRequest text attachment DEEP))
      = Some PROMPTS.SYSTEM_TRANSLATOR /\
    systemInstruction (config (Gemini.translateRequest text attachment FAST))
      = Some PROMPTS.SYSTEM_TRANSLATOR /\
    contents (Gemini.translateRequest text attachment DEEP)
      = contents (Gemini.translateRequest text attachment FAST) /\
    model (Gemini.translateRequest text attachment DEEP) = MODELS.TRANSLATION_DEEP /\
    model (Gemini.translateRequest text attachment FAST) = MODELS.TRANSLATION_FAST /\
    MODELS.TRANSLATION_DEEP <> MODELS.TRANSLATION_FAST /\
    (forall env speed key req,
       In (GenerateContent key req)
          (trace (Gemini.translateContent env text attachment speed)) ->
       req = Gemini.translateRequest text attachment speed) /\
    (forall env speed key,
       API_KEY env = Some key -> truthy key = true ->
       In (GenerateContent key (Gemini.translateRequest text attachment speed))
          (trace (Gemini.translateContent env text attachment speed))).
Proof.
  intros text attachment.
  do 7 (split; [reflexivity|]).
  split; [discriminate|]. split.
  - intros env speed key req. rewrite translateContent_trace.
    destruct (API_KEY env) as [k|].
    + destruct (truthy k).
      * intros [H|H]; [now injection H as _ <-|].
        destruct (generateContent env _); [destruct H as [H|[]]; discriminate H|destruct H].
      * intros [H|[]]. discriminate H.
    + intros [H|[]]. discriminate H.
  - intros env speed key K T. rewrite translateContent_trace, K, T. now left.
Qed.

Lemma deep_translation_alone_has_a_thinking_budget_witness :
  In (GenerateContent (lit "key")
        (Gemini.translateRequest (lit "Dasein") None DEEP))
     (trace (Gemini.translateContent (Examples.worldReplying Examples.emptyReply)
               (lit "Dasein") None DEEP))
  /\ In (GenerateContent (lit "key")
           (Gemini.translateRequest (lit "Dasein") None FAST))
        (trace (Gemini.translateContent (Examples.worldReplying Examples.emptyReply)
                  (lit "Dasein") None FAST)).
Proof.
  destruct (deep_translation_alone_has_a_thinking_budget (lit "Dasein") None)
    as (_ & _ & _ & _ & _ & _ & _ & _ & _ & S).
  split; apply S; reflexivity.
Defined.

(** ** Text replies *)

(** C8: for translation and for analysis, once the model has replied the
    service returns a string and does not throw: the reply's primary text
    when there is one and it is not empty, otherwise the fallback
    "Translation failed." (respectively "Analysis failed."); the string
    returned is never empty. *)
Theorem text_reply_is_always_a_string :
  forall env key reply,
    API_KEY env = Some key -> truthy key = true ->
    (forall text attachment speed,
       generateContent env (Gemini.translateRequest text attachment speed) = inr reply ->
       exists s,
         outcome (Gemini.translateContent env text attachment speed)
           = inr {| Gemini.translation := s; Gemini.groundingUrls := Some [] |}
         /\ s <> []
         /\ (forall t, response_text reply = Some t -> t <> [] -> s = t)
         /\ (response_text reply = None \/ response_text reply = Some [] ->
             s = lit "Translation failed.")) /\
    (forall file prompt url,
       Browser.dataURL file = Some url ->
       generateContent env
         (Gemini.analyzeRequest (Browser.type file) (index (split 44 url) 1) prompt)
         = inr reply ->
       exists s,
         outcome (Gemini.analyzeImage env file prompt) = inr {| Gemini.text := s |}
         /\ s <> []
         /\ (forall t, response_text reply = Some t -> t <> [] -> s = t)
         /\ (response_text reply = None \/ response_text reply = Some [] ->
             s = lit "Analysis failed.")).
Proof.
  intros env key reply K T.
  assert (F : forall d, d <> [] ->
            or_else (response_text reply) d <> []
            /\ (forall t, response_text reply = Some t -> t <> [] ->
                          or_else (response_text reply) d = t)
            /\ (response_text reply = None \/ response_text reply = Some [] ->
                or_else (response_text reply) d = d)).
  { intros d Hd. unfold or_else. destruct (response_text reply) as [[|c t]|]; simpl.
    - split; [exact Hd|]. split; [|reflexivity]. intros t E N. injection E as <-. congruence.
    - split; [discriminate|]. split.
      + intros t' E _. now injection E as <-.
      + intros [E|E]; discriminate E.
    - split; [exact Hd|]. split; [|reflexivity]. intros t E. discriminate E. }
  split.
  - intros text attachment speed R.
    exists (or_else (response_text reply) (lit "Translation failed.")). split.
    + unfold Gemini.translateContent. rewrite (getAiClient_keyed _ _ K T).
      run_eff. rewrite R. reflexivity.
    + apply F. discriminate.
  - intros file prompt url U R.
    exists (or_else (response_text reply) (lit "Analysis failed.")). split.
    + unfold Gemini.analyzeImage, Gemini.readBase64.
      rewrite (getAiClient_keyed _ _ K T), U.
      run_eff. rewrite R. reflexivity.
    + apply F. discriminate.
Qed.

Lemma text_reply_is_always_a_string_witness :
  outcome (Gemini.translateContent (Examples.worldReplying Examples.emptyReply)
             (lit "Dasein") None FAST)
    = inr {| Gemini.translation := lit "Translation failed.";
             Gemini.groundingUrls := Some [] |}
  /\ outcome (Gemini.analyzeImage (Examples.worldReplying Examples.emptyReply)
                (Examples.fileNamed "scan.png" "image/png") None)
       = inr {| Gemini.text := lit "Analysis failed." |}.
Proof.
  destruct (text_reply_is_always_a_string (Examples.worldReplying Examples.emptyReply)
              (lit "key") Examples.emptyReply eq_refl eq_refl) as (Tr & An).
  split.
  - destruct (Tr (lit "Dasein") None FAST eq_refl) as (s & E & _ & _ & D).
    rewrite E, (D (or_introl eq_refl)). reflexivity.
  - destruct (An (Examples.fileNamed "scan.png" "image/png") None _ eq_refl eq_refl)
      as (s & E & _ & _ & D).
    rewrite E, (D (or_introl eq_refl)). reflexivity.
Defined.

(** ** Generated images *)

(** The loop returns at the first part bearing inline data. *)
Lemma extractImage_first (before : list Part) part after blob :
  Forall (fun q => inlineData q = None) before -> inlineData part = Some blob ->
  Gemini.extractImage (before ++ part :: after) = ret (Gemini.dataUrlOf blob).
Proof.
  intros H P. induction H as [|q before Hq _ IH]; simpl.
  - now rewrite P.
  - now rewrite Hq.
Qed.

(** Without such a part the loop runs out and the error is thrown. *)
Lemma extractImage_none (ps : list Part) :
  Forall (fun q => inlineData q = None) ps ->
  Gemini.extractImage ps = throw (Error (lit "No image generated.")).
Proof.
  induction 1 as [|q ps Hq _ IH]; simpl; [reflexivity|now rewrite Hq].
Qed.

(** Every list of parts is in one of the two cases. *)
Lemma parts_first_inline (ps : list Part) :
  Forall (fun q => inlineData q = None) ps \/
  exists before part after blob,
    ps = before ++ part :: after /\
    Forall (fun q => inlineData q = None) before /\ inlineData part = Some blob.
Proof.
  induction ps as [|p ps IH]; [left; constructor|].
  destruct (inlineData p) as [b|] eqn:E.
  - right. exists [], p, ps, b. repeat split; [constructor|exact E].
  - destruct IH as [H|(before & part & after & blob & -> & H & P)].
    + left. now constructor.
    + right. exists (p :: before), part, after, blob.
      repeat split; [now constructor|exact P].
Qed.

Lemma generatePhilosophicalImage_replied env key prompt size reply :
  API_KEY env = Some key -> truthy key = true ->
  generateContent env (Gemini.imageRequest prompt size) = inr reply ->
  outcome (Gemini.generatePhilosophicalImage env prompt size)
    = outcome (Gemini.extractImage (Gemini.partsOf reply)).
Proof.
  intros K T R. unfold Gemini.generatePhilosophicalImage.
  rewrite (getAiClient_keyed _ _ K T). run_eff. rewrite R.
  destruct (Gemini.extractImage (Gemini.partsOf reply)) as [t [e|url]]; reflexivity.
Qed.

(** C7: for image generation, once the model has replied, the parts of the
    first candidate are scanned in order.  If some part bears inline data,
    the result is the data URL made of the media type ("image/png" when the
    part gives none) and the data of the first such part.  If no part bears
    inline data, the call fails with the error "No image generated.".  A
    failure of the network call is passed on as it is, so the two failures
    differ whenever the network error is not that very message. *)
Theorem image_reply_interpretation :
  forall env key prompt size,
    API_KEY env = Some key -> truthy key = true ->
    (forall reply,
       generateContent env (Gemini.imageRequest prompt size) = inr reply ->
       (forall before part after blob,
          Gemini.partsOf reply = before ++ part :: after ->
          Forall (fun q => inlineData q = None) before ->
          inlineData part = Some blob ->
          outcome (Gemini.generatePhilosophicalImage env prompt size)
            = inr (lit "data:" ++ or_else (Genai.mimeType blob) (lit "image/png")
                   ++ lit ";base64," ++ interpolate (Genai.data blob))) /\
       (Forall (fun q => inlineData q = None) (Gemini.partsOf reply) ->
        outcome (Gemini.generatePhilosophicalImage env prompt size)
          = inl (Error (lit "No image generated.")))) /\
    (forall e,
       generateContent env (Gemini.imageRequest prompt size) = inl e ->
       outcome (Gemini.generatePhilosophicalImage env prompt size) = inl e /\
       (message e <> Some (lit "No image generated.") ->
        outcome (Gemini.generatePhilosophicalImage env prompt size)
          <> inl (Error (lit "No image generated.")))).
Proof.
  intros env key prompt size K T. split.
  - intros reply R. rewrite (generatePhilosophicalImage_replied _ _ _ _ _ K T R). split.
    + intros before part after blob E H P.
      now rewrite E, (extractImage_first _ _ _ _ H P).
    + intros H. now rewrite (extractImage_none _ H).
  - intros e R.
    assert (O : outcome (Gemini.generatePhilosophicalImage env prompt size) = inl e).
    { unfold Gemini.generatePhilosophicalImage.
      rewrite (getAiClient_keyed _ _ K T). run_eff. now rewrite R. }
    split; [exact O|].
    intros M. rewrite O. intros E. injection E as ->. now apply M.
Qed.

Lemma image_reply_interpretation_witness :
  outcome (Gemini.generatePhilosophicalImage
             (Examples.worldReplying (Examples.replyWithParts Examples.captionThenTwoImages))
             (lit "The allegory of the cave") SIZE_1K)
    = inr (lit "data:image/jpeg;base64,Zmlyc3Q=")
  /\ outcome (Gemini.generatePhilosophicalImage
                (Examples.worldReplying (Examples.replyWithParts [textPart (lit "Sorry.")]))
                (lit "The allegory of the cave") SIZE_1K)
       = inl (Error (lit "No image generated."))
  /\ outcome (Gemini.generatePhilosophicalImage
                (Examples.worldFailing (Error (lit "fetch failed")))
                (lit "The allegory of the cave") SIZE_1K)
       <> inl (Error (lit "No image generated.")).
Proof.
  split; [|split].
  - destruct (image_reply_interpretation
                (Examples.worldReplying (Examples.replyWithParts Examples.captionThenTwoImages))
                (lit "key") (lit "The allegory of the cave") SIZE_1K eq_refl eq_refl)
      as (Rp & _).
    destruct (Rp _ eq_refl) as (First & _).
    apply (First [textPart (lit "Here is the image.")]
             (inlinePart {| Genai.mimeType := Some (lit "image/jpeg");
                            Genai.data := Some (lit "Zmlyc3Q=") |})
             [inlinePart {| Genai.mimeType := Some (lit "image/png");
                            Genai.data := Some (lit "c2Vjb25k") |}]
             {| Genai.mimeType := Some (lit "image/jpeg");
                Genai.data := Some (lit "Zmlyc3Q=") |}).
    + reflexivity.
    + repeat constructor.
    + reflexivity.
  - destruct (image_reply_interpretation
                (Examples.worldReplying (Examples.replyWithParts [textPart (lit "Sorry.")]))
                (lit "key") (lit "The allegory of the cave") SIZE_1K eq_refl eq_refl)
      as (Rp & _).
    destruct (Rp _ eq_refl) as (_ & Nothing).
    apply Nothing. repeat constructor.
  - destruct (image_reply_interpretation
                (Examples.worldFailing (Error (lit "fetch failed")))
                (lit "key") (lit "The allegory of the cave") SIZE_1K eq_refl eq_refl)
      as (_ & Fl).
    destruct (Fl _ eq_refl) as (_ & Differ).
    apply Differ. discriminate.
Defined.

(** The panel's [catch] block does not tell the two failures apart: unless
    the error text mentions the missing entity, it shows the same message. *)
Remark handleGenerate_message_for_failures (e : JsError) :
  ImageGenerationPanel.isAuthFailure e = false ->
  ImageGenerationPanel.errorMessageFor e
    = ImageGenerationPanel.errorMessageFor (Error (lit "No image generated.")).
Proof.
  intros H. unfold ImageGenerationPanel.errorMessageFor. now rewrite H.
Qed.

(* ===================================================================== *)
(** * Further properties of the services and the panels *)
(* ===================================================================== *)

(** ** The services, case by case *)

Lemma getAiClient_unkeyed env :
  truthy_opt (API_KEY env) = false ->
  Gemini.getAiClient env = (keyMissingLog, inl keyMissing).
Proof.
  unfold Gemini.getAiClient, truthy_opt.
  destruct (API_KEY env) as [k|]; [|reflexivity].
  now intros ->.
Qed.

Lemma keyed_or_not env :
  (exists key, API_KEY env = Some key /\ truthy key = true) \/
  truthy_opt (API_KEY env) = false.
Proof.
  unfold truthy_opt. destruct (API_KEY env) as [k|]; [|now right].
  destruct (truthy k) eqn:T; [left; now exists k|now right].
Qed.

Lemma translateContent_keyed env key text attachment speed :
  API_KEY env = Some key -> truthy key = true ->
  Gemini.translateContent env text attachment speed =
    match generateContent env (Gemini.translateRequest text attachment speed) with
    | inr reply =>
        ([GenerateContent key (Gemini.translateRequest text attachment speed)],
         inr {| Gemini.translation :=
                  or_else (response_text reply) (lit "Translation failed.");
                Gemini.groundingUrls := Some [] |})
    | inl e =>
        ([GenerateContent key (Gemini.translateRequest text attachment speed);
          ConsoleError (Some (lit "Translation Error:")) (Some e)],
         inl e)
    end.
Proof.
  intros K T. unfold Gemini.translateContent.
  rewrite (getAiClient_keyed _ _ K T). run_eff.
  destruct (generateContent env _); reflexivity.
Qed.

Lemma translateContent_unkeyed env text attachment speed :
  truthy_opt (API_KEY env) = false ->
  Gemini.translateContent env text attachment speed = (keyMissingLog, inl keyMissing).
Proof.
  intros K. unfold Gemini.translateContent. now rewrite (getAiClient_unkeyed _ K).
Qed.

Lemma defineTerm_keyed env key term :
  API_KEY env = Some key -> truthy key = true ->
  Gemini.defineTerm env term =
    match generateContent env (Gemini.defineTermRequest term) with
    | inr reply =>
        ([GenerateContent key (Gemini.defineTermRequest term)],
         inr {| Gemini.definition := response_text reply;
                Gemini.urls := Gemini.extractUrls (Gemini.groundingChunksOf reply) |})
    | inl e =>
        ([GenerateContent key (Gemini.defineTermRequest term);
          ConsoleError None (Some e)],
         inr {| Gemini.definition := Some (lit "Could not fetch definition.");
                Gemini.urls := [] |})
    end.
Proof.
  intros K T. unfold Gemini.defineTerm.
  rewrite (getAiClient_keyed _ _ K T). run_eff.
  destruct (generateContent env _); reflexivity.
Qed.

Lemma defineTerm_unkeyed env term :
  truthy_opt (API_KEY env) = false ->
  Gemini.defineTerm env term = (keyMissingLog, inl keyMissing).
Proof.
  intros K. unfold Gemini.defineTerm. now rewrite (getAiClient_unkeyed _ K).
Qed.

Lemma analyzeImage_unkeyed env file prompt :
  truthy_opt (API_KEY env) = false ->
  Gemini.analyzeImage env file prompt = (keyMissingLog, inl keyMissing).
Proof.
  intros K. unfold Gemini.analyzeImage. now rewrite (getAiClient_unkeyed _ K).
Qed.

Lemma analyzeImage_keyed env key file prompt :
  API_KEY env = Some key -> truthy key = true ->
  Gemini.analyzeImage env file prompt =
    match Browser.dataURL file with
    | None => ([UncaughtTypeError], inl {| message := None |})
    | Some url =>
        let req := Gemini.analyzeRequest (Browser.type file) (index (split 44 url) 1) prompt in
        match generateContent env req with
        | inr reply =>
            ([GenerateContent key req],
             inr {| Gemini.text := or_else (response_text reply) (lit "Analysis failed.") |})
        | inl e =>
            ([GenerateContent key req;
              ConsoleError (Some (lit "Image Analysis Error:")) (Some e)],
             inl e)
        end
    end.
Proof.
  intros K T. unfold Gemini.analyzeImage, Gemini.readBase64.
  rewrite (getAiClient_keyed _ _ K T).
  destruct (Browser.dataURL file) as [url|]; [|reflexivity].
  run_eff. destruct (generateContent env _); reflexivity.
Qed.

Lemma extractImage_silent (ps : list Part) : trace (Gemini.extractImage ps) = [].
Proof.
  induction ps as [|p ps IH]; simpl; [reflexivity|].
  destruct (inlineData p); [reflexivity|exact IH].
Qed.

Lemma generatePhilosophicalImage_unkeyed env prompt size :
  truthy_opt (API_KEY env) = false ->
  Gemini.generatePhilosophicalImage env prompt size = (keyMissingLog, inl keyMissing).
Proof.
  intros K. unfold Gemini.generatePhilosophicalImage. now rewrite (getAiClient_unkeyed _ K).
Qed.

Lemma generatePhilosophicalImage_keyed env key prompt size :
  API_KEY env = Some key -> truthy key = true ->
  Gemini.generatePhilosophicalImage env prompt size =
    match generateContent env (Gemini.imageRequest prompt size) with
    | inr reply =>
        match outcome (Gemini.extractImage (Gemini.partsOf reply)) with
        | inr url => ([GenerateContent key (Gemini.imageRequest prompt size)], inr url)
        | inl e =>
            ([GenerateContent key (Gemini.imageRequest prompt size);
              ConsoleError (Some (lit "Image Gen Error:")) (Some e)],
             inl e)
        end
    | inl e =>
        ([GenerateContent key (Gemini.imageRequest prompt size);
          ConsoleError (Some (lit "Image Gen Error:")) (Some e)],
         inl e)
    end.
Proof.
  intros K T. unfold Gemini.generatePhilosophicalImage.
  rewrite (getAiClient_keyed _ _ K T). run_eff.
  destruct (generateContent env _) as [e|reply]; [reflexivity|].
  pose proof (extractImage_silent (Gemini.partsOf reply)) as S. unfold trace in S.
  destruct (Gemini.extractImage (Gemini.partsOf reply)) as [t [e|url]];
    simpl in S; subst t; reflexivity.
Qed.

(** ** A missing key *)

(** X1: without a (non-empty) API key every service fails at once with the
    error "API Key missing", after logging that the key was not found, and
    sends nothing to the model. *)
Theorem missing_key_stops_every_service :
  forall env,
    truthy_opt (API_KEY env) = false ->
    (forall text attachment speed,
       Gemini.translateContent env text attachment speed
         = ([ConsoleError (Some (lit "API Key not found in environment")) None],
            inl (Error (lit "API Key missing")))) /\
    (forall term,
       Gemini.defineTerm env term
         = ([ConsoleError (Some (lit "API Key not found in environment")) None],
            inl (Error (lit "API Key missing")))) /\
    (forall file prompt,
       Gemini.analyzeImage env file prompt
         = ([ConsoleError (Some (lit "API Key not found in environment")) None],
            inl (Error (lit "API Key missing")))) /\
    (forall prompt size,
       Gemini.generatePhilosophicalImage env prompt size
         = ([ConsoleError (Some (lit "API Key not found in environment")) None],
            inl (Error (lit "API Key missing")))).
Proof.
  intros env K. split; [|split; [|split]]; intros.
  - now apply translateContent_unkeyed.
  - now apply defineTerm_unkeyed.
  - now apply analyzeImage_unkeyed.
  - now apply generatePhilosophicalImage_unkeyed.
Qed.

Lemma missing_key_stops_every_service_witness :
  outcome (Gemini.translateContent Examples.worldWithoutKey (lit "Dasein") None DEEP)
    = inl (Error (lit "API Key missing"))
  /\ networkCalls (trace (Gemini.analyzeImage Examples.worldWithoutKey
                            (Examples.fileNamed "scan.png" "image/png") None)) = [].
Proof.
  destruct (missing_key_stops_every_service Examples.worldWithoutKey eq_refl)
    as (T & _ & A & _).
  split.
  - now rewrite (T (lit "Dasein") None DEEP).
  - now rewrite (A (Examples.fileNamed "scan.png" "image/png") None).
Defined.

(** ** The handlers, once past their guard *)

Lemma handleTranslate_submitted env st :
  blank (input st) = false \/ attachment st <> None ->
  handleTranslate env st =
    (setLoading false
       (setOutput
          match outcome (Gemini.translateContent env (input st) (sentAttachment st) (speed st)) with
          | inr result => Gemini.translation result
          | inl _ => lit "An error occurred during translation. Please try again."
          end
          (setOutput [] (setLoading true st))),
     trace (Gemini.translateContent env (input st) (sentAttachment st) (speed st))).
Proof.
  intros G. unfold handleTranslate. rewrite truthy_trim.
  assert (negb (negb (blank (input st))) && negb (defined (attachment st)) = false) as ->.
  { destruct G as [B|A]; [now rewrite B|].
    destruct (attachment st); [apply andb_false_r|contradiction]. }
  unfold sentAttachment.
  destruct (outcome _); reflexivity.
Qed.

Lemma handleDefineTerm_submitted env st :
  blank (termQuery st) = false ->
  handleDefineTerm env st =
    (setDefiningTerm false
       (setTermDefinition
          (Some match outcome (Gemini.defineTerm env (termQuery st)) with
                | inr result =>
                    {| text := or_else (Gemini.definition result) (lit "No definition found.");
                       urls := Gemini.urls result |}
                | inl _ => {| text := lit "Error fetching definition."; urls := [] |}
                end)
          (setDefiningTerm true st)),
     trace (Gemini.defineTerm env (termQuery st))).
Proof.
  intros B. unfold handleDefineTerm. rewrite truthy_trim, B. cbn [negb].
  destruct (outcome _); reflexivity.
Qed.

(** The key check never contacts the model. *)
Lemma ensureApiKeySelected_silent env :
  networkCalls (trace (Gemini.ensureApiKeySelected env)) = [].
Proof.
  unfold Gemini.ensureApiKeySelected.
  destruct (aistudio env) as [studio|]; [|reflexivity].
  destruct (hasSelectedApiKey studio) as [e|[|]]; try reflexivity.
  destruct (openSelectKey studio) as [e|[]]; [reflexivity|].
  destruct (hasSelectedApiKey_after studio); reflexivity.
Qed.

(** The dialog is opened exactly when AI Studio is there and its first
    answer is that no key is selected. *)
Lemma ensureApiKeySelected_dialog env :
  In OpenSelectKey (trace (Gemini.ensureApiKeySelected env)) <->
  exists studio, aistudio env = Some studio /\ hasSelectedApiKey studio = inr false.
Proof.
  unfold Gemini.ensureApiKeySelected.
  destruct (aistudio env) as [studio|].
  - destruct (hasSelectedApiKey studio) as [e|[|]] eqn:H.
    + split; [intros []|]. intros (s' & E & F). injection E as <-. congruence.
    + split; [intros []|]. intros (s' & E & F). injection E as <-. congruence.
    + split; [intros _; now exists studio|]. intros _.
      destruct (openSelectKey studio) as [e|[]]; [now left|].
      destruct (hasSelectedApiKey_after studio); now left.
  - split; [intros []|]. intros (s' & E & _). discriminate E.
Qed.

Lemma handleGenerate_submitted env st :
  blank (ImageGenerationPanel.prompt st) = false ->
  ImageGenerationPanel.handleGenerate env st =
    let st1 := ImageGenerationPanel.setGeneratedImage None
                 (ImageGenerationPanel.setError None
                    (ImageGenerationPanel.setLoading true st)) in
    let gen := Gemini.generatePhilosophicalImage env
                 (ImageGenerationPanel.prompt st) (ImageGenerationPanel.size st) in
    match outcome (Gemini.ensureApiKeySelected env) with
    | inl e =>
        (ImageGenerationPanel.setLoading false
           (ImageGenerationPanel.setError
              (Some (ImageGenerationPanel.errorMessageFor e)) st1),
         trace (Gemini.ensureApiKeySelected env) ++ [ConsoleError None (Some e)])
    | inr _ =>
        match outcome gen with
        | inr imageUrl =>
            (ImageGenerationPanel.setLoading false
               (ImageGenerationPanel.setGeneratedImage (Some imageUrl) st1),
             trace (Gemini.ensureApiKeySelected env) ++ trace gen)
        | inl e =>
            (ImageGenerationPanel.setLoading false
               (ImageGenerationPanel.setError
                  (Some (ImageGenerationPanel.errorMessageFor e)) st1),
             trace (Gemini.ensureApiKeySelected env) ++ trace gen
               ++ [ConsoleError None (Some e)])
        end
    end.
Proof.
  intros B. unfold ImageGenerationPanel.handleGenerate. rewrite truthy_trim, B. cbn [negb].
  destruct (Gemini.ensureApiKeySelected env) as [t [e|b]];
    [run_eff; reflexivity|].
  destruct (Gemini.generatePhilosophicalImage env _ _) as [tg [e|url]]; run_eff.
  - now rewrite <- app_assoc.
  - now rewrite app_nil_r.
Qed.

Lemma handleAnalyze_submitted env st file :
  ImageAnalysisPanel.selectedFile st = Some file ->
  ImageAnalysisPanel.handleAnalyze env st =
    (ImageAnalysisPanel.setLoading false
       (ImageAnalysisPanel.setAnalysis
          match outcome (Gemini.analyzeImage env file None) with
          | inr result => Gemini.text result
          | inl _ => lit "Failed to analyze image. Please ensure it is a valid image file."
          end
          (ImageAnalysisPanel.setLoading true st)),
     trace (Gemini.analyzeImage env file None)).
Proof.
  intros F. unfold ImageAnalysisPanel.handleAnalyze. rewrite F.
  destruct (outcome _); reflexivity.
Qed.

Lemma or_else_nonempty (o : option jsstring) (d : jsstring) : d <> [] -> or_else o d <> [].
Proof.
  intros D. unfold or_else. destruct o as [[|c s]|]; simpl; try exact D. discriminate.
Qed.

(** ** Translating *)

(** X2: a translation that gets past the guard always ends with the
    spinner off and a non-empty output: the reply's text or "Translation
    failed." when the model answered, and the message "An error occurred
    during translation. Please try again." when the key is missing (then
    nothing was sent) or the call failed. *)
Theorem translation_always_ends_with_an_output :
  forall env st,
    blank (input st) = false \/ attachment st <> None ->
    loading (fst (handleTranslate env st)) = false /\
    output (fst (handleTranslate env st)) <> [] /\
    (truthy_opt (API_KEY env) = false ->
       output (fst (handleTranslate env st))
         = lit "An error occurred during translation. Please try again."
       /\ networkCalls (snd (handleTranslate env st)) = []) /\
    (forall e,
       truthy_opt (API_KEY env) = true -> generateContent env (requestOf st) = inl e ->
       output (fst (handleTranslate env st))
         = lit "An error occurred during translation. Please try again.") /\
    (forall reply,
       truthy_opt (API_KEY env) = true -> generateContent env (requestOf st) = inr reply ->
       output (fst (handleTranslate env st))
         = or_else (response_text reply) (lit "Translation failed.")).
Proof.
  intros env st G. rewrite (handleTranslate_submitted _ _ G). cbn [fst snd].
  split; [reflexivity|]. unfold requestOf.
  destruct (keyed_or_not env) as [(key & K & T)|U].
  - rewrite (translateContent_keyed _ _ _ _ _ K T).
    assert (KT : truthy_opt (API_KEY env) = true) by (now rewrite K).
    destruct (generateContent env _) as [e|reply]; unfold outcome, trace; cbn [fst snd].
    + split; [discriminate|]. split; [congruence|]. split; [reflexivity|]. discriminate.
    + split; [apply or_else_nonempty; discriminate|].
      split; [congruence|]. split; [discriminate|].
      intros r _ E. now injection E as <-.
  - rewrite (translateContent_unkeyed _ _ _ _ U). unfold outcome, trace; cbn [fst snd].
    split; [discriminate|]. split; [now split|]. split; congruence.
Qed.

Lemma translation_always_ends_with_an_output_witness :
  output (fst (handleTranslate Examples.worldWithoutKey (Examples.typed (lit "Dasein"))))
    = lit "An error occurred during translation. Please try again."
  /\ output (fst (handleTranslate (Examples.worldFailing (Error (lit "fetch failed")))
                    Examples.afterPdf))
       = lit "An error occurred during translation. Please try again."
  /\ output (fst (handleTranslate (Examples.worldReplying Examples.emptyReply)
                    (Examples.typed (lit "Dasein"))))
       = lit "Translation failed.".
Proof.
  split; [|split].
  - destruct (translation_always_ends_with_an_output Examples.worldWithoutKey
                (Examples.typed (lit "Dasein")) (or_introl eq_refl))
      as (_ & _ & U & _).
    exact (proj1 (U eq_refl)).
  - destruct (translation_always_ends_with_an_output
                (Examples.worldFailing (Error (lit "fetch failed"))) Examples.afterPdf
                (or_introl eq_refl))
      as (_ & _ & _ & F & _).
    exact (F _ eq_refl eq_refl).
  - destruct (translation_always_ends_with_an_output
                (Examples.worldReplying Examples.emptyReply)
                (Examples.typed (lit "Dasein")) (or_introl eq_refl))
      as (_ & _ & _ & _ & R).
    exact (R _ eq_refl eq_refl).
Defined.

(** X3: translating writes only the output and the spinner, and looking up
    a term writes only the term definition and its spinner; whatever the
    world does, every other cell of the panel keeps its value. *)
Theorem translate_and_lookup_keep_to_their_cells :
  forall env st,
    (input (fst (handleTranslate env st)) = input st /\
     speed (fst (handleTranslate env st)) = speed st /\
     termQuery (fst (handleTranslate env st)) = termQuery st /\
     termDefinition (fst (handleTranslate env st)) = termDefinition st /\
     definingTerm (fst (handleTranslate env st)) = definingTerm st /\
     attachment (fst (handleTranslate env st)) = attachment st /\
     sourceFormat (fst (handleTranslate env st)) = sourceFormat st) /\
    (input (fst (handleDefineTerm env st)) = input st /\
     output (fst (handleDefineTerm env st)) = output st /\
     speed (fst (handleDefineTerm env st)) = speed st /\
     loading (fst (handleDefineTerm env st)) = loading st /\
     termQuery (fst (handleDefineTerm env st)) = termQuery st /\
     attachment (fst (handleDefineTerm env st)) = attachment st /\
     sourceFormat (fst (handleDefineTerm env st)) = sourceFormat st).
Proof.
  intros env st. split.
  - unfold handleTranslate.
    destruct (negb (truthy (trim (input st))) && negb (defined (attachment st)));
      [now repeat split|].
    cbn [fst]. destruct (outcome _); now repeat split.
  - unfold handleDefineTerm.
    destruct (negb (truthy (trim (termQuery st)))); [now repeat split|].
    cbn [fst]. destruct (outcome _); now repeat split.
Qed.

(** ** Looking up a term *)

(** X4: with a key configured, [defineTerm] never throws.  It sends exactly
    one request, the one built from the term; if the call fails the failure
    is logged and the reply is the definition "Could not fetch definition."
    with no URLs. *)
Theorem defineTerm_never_throws_with_a_key :
  forall env key term,
    API_KEY env = Some key -> truthy key = true ->
    exists reply,
      outcome (Gemini.defineTerm env term) = inr reply /\
      networkCalls (trace (Gemini.defineTerm env term))
        = [GenerateContent key (Gemini.defineTermRequest term)] /\
      (forall e,
         generateContent env (Gemini.defineTermRequest term) = inl e ->
         reply = {| Gemini.definition := Some (lit "Could not fetch definition.");
                    Gemini.urls := [] |}
         /\ In (ConsoleError None (Some e)) (trace (Gemini.defineTerm env term))).
Proof.
  intros env key term K T. rewrite (defineTerm_keyed _ _ _ K T).
  destruct (generateContent env _) as [e|r]; eexists; unfold outcome, trace; cbn [fst snd].
  - split; [reflexivity|]. split; [reflexivity|].
    intros e' E. injection E as <-. split; [reflexivity|]. right. now left.
  - split; [reflexivity|]. split; [reflexivity|]. intros e E. discriminate E.
Qed.

Lemma defineTerm_never_throws_with_a_key_witness :
  outcome (Gemini.defineTerm (Examples.worldFailing (Error (lit "fetch failed")))
             (lit "Zeitgeist"))
  = inr {| Gemini.definition := Some (lit "Could not fetch definition.");
           Gemini.urls := [] |}.
Proof.
  destruct (defineTerm_never_throws_with_a_key
              (Examples.worldFailing (Error (lit "fetch failed")))
              (lit "key") (lit "Zeitgeist") eq_refl eq_refl)
    as (reply & O & _ & F).
  rewrite O. f_equal. exact (proj1 (F _ eq_refl)).
Defined.

(** X5: a lookup of a non-blank term always ends with its spinner off and
    a definition whose text is not empty: "Error fetching definition." when
    the key is missing, "Could not fetch definition." when the call failed,
    "No definition found." when the reply has no text, and the reply's text
    otherwise. *)
Theorem lookup_always_ends_with_a_definition :
  forall env st,
    blank (termQuery st) = false ->
    definingTerm (fst (handleDefineTerm env st)) = false /\
    exists td,
      termDefinition (fst (handleDefineTerm env st)) = Some td /\
      text td <> [] /\
      (truthy_opt (API_KEY env) = false ->
         td = {| text := lit "Error fetching definition."; urls := [] |}) /\
      (forall e,
         truthy_opt (API_KEY env) = true ->
         generateContent env (Gemini.defineTermRequest (termQuery st)) = inl e ->
         td = {| text := lit "Could not fetch definition."; urls := [] |}) /\
      (forall reply,
         truthy_opt (API_KEY env) = true ->
         generateContent env (Gemini.defineTermRequest (termQuery st)) = inr reply ->
         td = {| text := or_else (response_text reply) (lit "No definition found.");
                 urls := Gemini.extractUrls (Gemini.groundingChunksOf reply) |}).
Proof.
  intros env st B. rewrite (handleDefineTerm_submitted _ _ B). cbn [fst].
  split; [reflexivity|]. eexists. split; [reflexivity|].
  destruct (keyed_or_not env) as [(key & K & T)|U].
  - rewrite (defineTerm_keyed _ _ _ K T).
    assert (KT : truthy_opt (API_KEY env) = true) by (now rewrite K).
    destruct (generateContent env _) as [e|reply]; unfold outcome; cbn [snd].
    + split; [discriminate|]. split; [congruence|]. split; [reflexivity|]. discriminate.
    + split; [apply or_else_nonempty; discriminate|].
      split; [congruence|]. split; [discriminate|].
      intros r _ E. now injection E as <-.
  - rewrite (defineTerm_unkeyed _ _ U). unfold outcome; cbn [snd].
    split; [discriminate|]. split; [reflexivity|]. split; congruence.
Qed.

Lemma lookup_always_ends_with_a_definition_witness :
  termDefinition (fst (handleDefineTerm Examples.worldWithoutKey
                         (Examples.lookingUp (lit "Zeitgeist"))))
  = Some {| text := lit "Error fetching definition."; urls := [] |}.
Proof.
  destruct (lookup_always_ends_with_a_definition Examples.worldWithoutKey
              (Examples.lookingUp (lit "Zeitgeist")) eq_refl)
    as (_ & td & E & _ & U & _).
  rewrite E. f_equal. exact (U eq_refl).
Defined.

(** ** One press, one call *)

Lemma translateContent_calls_once env text attachment speed :
  (List.length (networkCalls (trace (Gemini.translateContent env text attachment speed))) <= 1)%nat.
Proof.
  destruct (keyed_or_not env) as [(key & K & T)|U].
  - rewrite (translateContent_keyed _ _ _ _ _ K T).
    destruct (generateContent env _); cbn; lia.
  - rewrite (translateContent_unkeyed _ _ _ _ U). cbn; lia.
Qed.

Lemma defineTerm_calls_once env term :
  (List.length (networkCalls (trace (Gemini.defineTerm env term))) <= 1)%nat.
Proof.
  destruct (keyed_or_not env) as [(key & K & T)|U].
  - rewrite (defineTerm_keyed _ _ _ K T).
    destruct (generateContent env _); cbn; lia.
  - rewrite (defineTerm_unkeyed _ _ U). cbn; lia.
Qed.

Lemma analyzeImage_calls_once env file prompt :
  (List.length (networkCalls (trace (Gemini.analyzeImage env file prompt))) <= 1)%nat.
Proof.
  destruct (keyed_or_not env) as [(key & K & T)|U].
  - rewrite (analyzeImage_keyed _ _ _ _ K T).
    destruct (Browser.dataURL file); [|cbn; lia].
    cbv zeta. destruct (generateContent env _); cbn; lia.
  - rewrite (analyzeImage_unkeyed _ _ _ U). cbn; lia.
Qed.

Lemma generatePhilosophicalImage_calls_once env prompt size :
  (List.length (networkCalls (trace (Gemini.generatePhilosophicalImage env prompt size))) <= 1)%nat.
Proof.
  destruct (keyed_or_not env) as [(key & K & T)|U].
  - rewrite (generatePhilosophicalImage_keyed _ _ _ _ K T).
    destruct (generateContent env _); [cbn; lia|].
    destruct (outcome _); cbn; lia.
  - rewrite (generatePhilosophicalImage_unkeyed _ _ _ U). cbn; lia.
Qed.

Lemma networkCalls_app (a b : list Event) :
  networkCalls (a ++ b) = networkCalls a ++ networkCalls b.
Proof. unfold networkCalls. apply filter_app. Qed.

(** X6: one press of a button sends at most one request to the model,
    whichever handler it is, whatever the state and whatever the world
    answers; nothing is retried. *)
Theorem one_press_sends_at_most_one_request :
  forall env,
    (forall st, (List.length (networkCalls (snd (handleTranslate env st))) <= 1)%nat) /\
    (forall st, (List.length (networkCalls (snd (handleDefineTerm env st))) <= 1)%nat) /\
    (forall st,
       (List.length (networkCalls (snd (ImageAnalysisPanel.handleAnalyze env st))) <= 1)%nat) /\
    (forall st,
       (List.length (networkCalls (snd (ImageGenerationPanel.handleGenerate env st))) <= 1)%nat) /\
    (forall st,
       (List.length (networkCalls (snd (TextTranslationPanel.handleTranslate env st))) <= 1)%nat).
Proof.
  intros env. split; [|split; [|split; [|split]]]; intros st.
  - unfold handleTranslate.
    destruct (negb (truthy (trim (input st))) && negb (defined (attachment st)));
      [cbn; lia|].
    cbn [snd]. apply translateContent_calls_once.
  - unfold handleDefineTerm.
    destruct (negb (truthy (trim (termQuery st)))); [cbn; lia|].
    cbn [snd]. apply defineTerm_calls_once.
  - unfold ImageAnalysisPanel.handleAnalyze.
    destruct (ImageAnalysisPanel.selectedFile st); [|cbn; lia].
    cbn [snd]. apply analyzeImage_calls_once.
  - destruct (blank (ImageGenerationPanel.prompt st)) eqn:B.
    + unfold ImageGenerationPanel.handleGenerate. rewrite truthy_trim, B. cbn; lia.
    + rewrite (handleGenerate_submitted _ _ B). cbv zeta.
      pose proof (generatePhilosophicalImage_calls_once env
                    (ImageGenerationPanel.prompt st) (ImageGenerationPanel.size st)) as G.
      pose proof (ensureApiKeySelected_silent env) as N.
      destruct (outcome (Gemini.ensureApiKeySelected env)).
      * cbn [snd]. rewrite networkCalls_app, N. cbn. lia.
      * destruct (outcome (Gemini.generatePhilosophicalImage env _ _)); cbn [snd];
          rewrite !networkCalls_app, N; cbn [app]; [rewrite app_nil_r|]; exact G.
  - unfold TextTranslationPanel.handleTranslate.
    destruct (negb (truthy (trim (TextTranslationPanel.input st)))); [cbn; lia|].
    cbn [snd]. apply translateContent_calls_once.
Qed.

(** ** Source URLs *)

Lemma filterTruthy_app (a b : list (option jsstring)) :
  Gemini.filterTruthy (a ++ b) = Gemini.filterTruthy a ++ Gemini.filterTruthy b.
Proof.
  induction a as [|[u|] a IH]; simpl; [reflexivity| |exact IH].
  destruct (truthy u); simpl; now rewrite IH.
Qed.

Lemma filterTruthy_In (xs : list (option jsstring)) (u : jsstring) :
  In u (Gemini.filterTruthy xs) <-> u <> [] /\ In (Some u) xs.
Proof.
  induction xs as [|[v|] xs IH]; simpl.
  - tauto.
  - destruct v as [|c v]; simpl.
    + rewrite IH. split; [intros [N I]; now auto|].
      intros [N [E|I]]; [injection E as <-; contradiction|now split].
    + rewrite IH. split.
      * intros [<-|[N I]]; [split; [discriminate|now left]|now auto].
      * intros [N [E|I]]; [left; now injection E|right; now split].
  - rewrite IH. split; [intros [N I]; now auto|].
    intros [N [E|I]]; [discriminate E|now split].
Qed.

Lemma filterTruthy_length (xs : list (option jsstring)) :
  (List.length (Gemini.filterTruthy xs) <= List.length xs)%nat.
Proof.
  induction xs as [|[u|] xs IH]; simpl; [lia| |lia].
  destruct (truthy u); simpl; lia.
Qed.

(** X7: the URLs [defineTerm] extracts are exactly the non-empty URIs of the
    grounding chunks: a URL is extracted if and only if it is not empty and
    is the web URI of some chunk; extraction goes chunk by chunk, so the order
    of the chunks is kept, and there are never more URLs than chunks. *)
Theorem extracted_urls_are_the_nonempty_uris :
  forall chunks,
    (forall u,
       In u (Gemini.extractUrls chunks) <->
       u <> [] /\ exists c, In c chunks /\ Gemini.webUri c = Some u) /\
    (forall first rest,
       chunks = first ++ rest ->
       Gemini.extractUrls chunks = Gemini.extractUrls first ++ Gemini.extractUrls rest) /\
    (List.length (Gemini.extractUrls chunks) <= List.length chunks)%nat.
Proof.
  intros chunks. unfold Gemini.extractUrls. split; [|split].
  - intros u. rewrite filterTruthy_In, in_map_iff. split.
    + intros [N (c & E & I)]. split; [exact N|now exists c].
    + intros [N (c & I & E)]. split; [exact N|now exists c].
  - intros first rest ->. now rewrite map_app, filterTruthy_app.
  - rewrite <- (length_map Gemini.webUri chunks). apply filterTruthy_length.
Qed.

Lemma extracted_urls_are_the_nonempty_uris_witness :
  Gemini.extractUrls Examples.sixChunks
  = Gemini.extractUrls (firstn 2 Examples.sixChunks)
    ++ Gemini.extractUrls (skipn 2 Examples.sixChunks).
Proof.
  destruct (extracted_urls_are_the_nonempty_uris Examples.sixChunks) as (_ & A & _).
  apply A. reflexivity.
Defined.

(** ** What is sent for an attachment or an image *)

Lemma split_without_separator (sep : N) (s : jsstring) :
  ~ In sep s -> split sep s = [s].
Proof.
  induction s as [|c s IH]; intros H; [reflexivity|].
  simpl. destruct (N.eqb_spec c sep) as [->|Hne]; [exfalso; apply H; now left|].
  rewrite IH; [reflexivity|]. intros I. apply H. now right.
Qed.

Lemma split_at_first_separator (sep : N) (a r : jsstring) :
  ~ In sep a -> split sep (a ++ sep :: r) = a :: split sep r.
Proof.
  induction a as [|c a IH]; intros H; simpl.
  - now rewrite N.eqb_refl.
  - destruct (N.eqb_spec c sep) as [->|Hne]; [exfalso; apply H; now left|].
    rewrite IH; [reflexivity|]. intros I. apply H. now right.
Qed.

(** What follows the first comma of a data URL, up to the next comma. *)
Lemma second_piece_of_data_url (prefix payload : jsstring) :
  ~ In 44 prefix -> ~ In 44 payload ->
  index (split 44 (prefix ++ 44 :: payload)) 1 = Some payload.
Proof.
  intros P Q. rewrite (split_at_first_separator _ _ _ P), (split_without_separator _ _ Q).
  reflexivity.
Qed.

(** X8: a PDF or image picked on the translation panel is sent without its
    data-URL prefix.  If the file reads as [prefix,payload] (no comma in
    either part, payload not empty), then picking it and pressing Translate
    sends exactly one request: the inline part carries the file's media type
    and the bare payload, and the text part is the attachment instruction with
    an empty user context, the text input having been cleared by the import. *)
Theorem attachment_is_sent_without_its_prefix :
  forall env key file st prefix payload,
    API_KEY env = Some key -> truthy key = true ->
    isBinaryType file = true ->
    Browser.dataURL file = Some (prefix ++ 44 :: payload) ->
    ~ In 44 prefix -> ~ In 44 payload -> payload <> [] ->
    networkCalls (snd (handleTranslate env (fst (handleFileSelect env (Some file) st))))
    = [GenerateContent key
         {| model := Gemini.translateModel (speed st);
            contents :=
              ContentParts
                [ inlinePart {| Genai.mimeType := Some (Browser.type file);
                                Genai.data := Some payload |};
                  textPart (lit "Translate the attached document from English to Turkish (or vice versa based on detection). Preserve philosophical nuance."
                            ++ nl ++ nl ++ lit "Context/Instructions from user: " ++ []) ];
            config := Gemini.translateConfig (speed st) |}].
Proof.
  intros env key file st prefix payload K T B R P Q NE.
  assert (S1 : fst (handleFileSelect env (Some file) st)
               = setInput []
                   (setAttachment
                      (Some {| data := prefix ++ 44 :: payload;
                               mimeType := Browser.type file;
                               name := Browser.name file |})
                      (setSourceFormat (detectSourceFormat file) st))).
  { unfold isBinaryType in B. unfold handleFileSelect. now rewrite B, R. }
  rewrite S1.
  rewrite handleTranslate_submitted by (right; discriminate).
  cbn [snd]. rewrite (translateContent_keyed _ _ _ _ _ K T).
  unfold sentAttachment. cbn [attachment setInput setAttachment data mimeType speed input
                               setSourceFormat].
  unfold rawBase64. rewrite (second_piece_of_data_url _ _ P Q).
  destruct payload as [|c payload]; [contradiction|].
  destruct (generateContent env _); reflexivity.
Qed.

Lemma attachment_is_sent_without_its_prefix_witness :
  networkCalls
    (snd (handleTranslate (Examples.worldReplying Examples.emptyReply)
            (fst (handleFileSelect (Examples.worldReplying Examples.emptyReply)
                    (Some (Examples.fileNamed "essay.pdf" "application/pdf"))
                    (Examples.typed (lit "typed before"))))))
  = [GenerateContent (lit "key")
       (Gemini.translateRequest []
          (Some {| Gemini.att_mimeType := lit "application/pdf";
                   Gemini.att_data := lit "QUJD" |}) DEEP)].
Proof.
  refine (attachment_is_sent_without_its_prefix
            (Examples.worldReplying Examples.emptyReply) (lit "key")
            (Examples.fileNamed "essay.pdf" "application/pdf")
            (Examples.typed (lit "typed before"))
            (lit "data:application/pdf;base64") (lit "QUJD")
            eq_refl eq_refl eq_refl eq_refl _ _ _).
  - vm_compute. intuition discriminate.
  - vm_compute. intuition discriminate.
  - discriminate.
Defined.

(** X9: pressing Analyze with an image selected sends one request to the
    analysis model: the image inline, under the file's media type and with
    what follows the comma of its data URL as data, then the canned
    instruction (the panel passes no prompt of its own), under the analysis
    system instruction.  A data URL without a comma is sent all the same,
    with no data at all.  For a file that cannot be read nothing is sent: the
    rejected read reaches the panel, which shows the failure message, and
    the only other effect is the uncaught [TypeError] of the reader's
    [onloadend] handler, which splits a [null] result. *)
Theorem analysis_sends_the_image_with_the_canned_instruction :
  forall env key st file,
    API_KEY env = Some key -> truthy key = true ->
    ImageAnalysisPanel.selectedFile st = Some file ->
    (forall prefix payload,
       Browser.dataURL file = Some (prefix ++ 44 :: payload) ->
       ~ In 44 prefix -> ~ In 44 payload ->
       networkCalls (snd (ImageAnalysisPanel.handleAnalyze env st))
       = [GenerateContent key
            {| model := MODELS.ANALYSIS;
               contents :=
                 ContentParts
                   [ inlinePart {| Genai.mimeType := Some (Browser.type file);
                                   Genai.data := Some payload |};
                     textPart (lit "Analyze this image. If it contains text, translate it preserving philosophical meaning. If it is an image without text, interpret its philosophical symbolism.") ];
               config := {| systemInstruction := Some PROMPTS.SYSTEM_ANALYSIS;
                            thinkingConfig := None; tools := None;
                            imageConfig := None |} |}]) /\
    (forall url,
       Browser.dataURL file = Some url -> ~ In 44 url ->
       networkCalls (snd (ImageAnalysisPanel.handleAnalyze env st))
       = [GenerateContent key
            (Gemini.analyzeRequest (Browser.type file) None None)]) /\
    (Browser.dataURL file = None ->
       snd (ImageAnalysisPanel.handleAnalyze env st) = [UncaughtTypeError] /\
       ImageAnalysisPanel.analysis (fst (ImageAnalysisPanel.handleAnalyze env st))
         = lit "Failed to analyze image. Please ensure it is a valid image file.").
Proof.
  intros env key st file K T F.
  rewrite (handleAnalyze_submitted _ _ _ F). cbn [fst snd].
  rewrite (analyzeImage_keyed _ _ _ _ K T).
  split; [|split].
  - intros prefix payload R P Q. rewrite R, (second_piece_of_data_url _ _ P Q).
    cbv zeta. destruct (generateContent env _); reflexivity.
  - intros url R Q. rewrite R, (split_without_separator _ _ Q).
    cbv zeta. destruct (generateContent env _); reflexivity.
  - intros R. rewrite R. split; reflexivity.
Qed.

Lemma analysis_sends_the_image_with_the_canned_instruction_witness :
  networkCalls
    (snd (ImageAnalysisPanel.handleAnalyze (Examples.worldReplying Examples.emptyReply)
            (Examples.holding (Examples.fileNamed "scan.png" "image/png"))))
  = [GenerateContent (lit "key")
       (Gemini.analyzeRequest (lit "image/png") (Some (lit "QUJD")) None)]
  /\ snd (ImageAnalysisPanel.handleAnalyze (Examples.worldReplying Examples.emptyReply)
            (Examples.holding (Examples.unreadable "scan.png" "image/png")))
     = [UncaughtTypeError].
Proof.
  split.
  - destruct (analysis_sends_the_image_with_the_canned_instruction
                (Examples.worldReplying Examples.emptyReply) (lit "key")
                (Examples.holding (Examples.fileNamed "scan.png" "image/png"))
                (Examples.fileNamed "scan.png" "image/png") eq_refl eq_refl eq_refl)
      as (S & _).
    apply (S (lit "data:image/png;base64") (lit "QUJD") eq_refl).
    + vm_compute. intuition discriminate.
    + vm_compute. intuition discriminate.
  - destruct (analysis_sends_the_image_with_the_canned_instruction
                (Examples.worldReplying Examples.emptyReply) (lit "key")
                (Examples.holding (Examples.unreadable "scan.png" "image/png"))
                (Examples.unreadable "scan.png" "image/png") eq_refl eq_refl eq_refl)
      as (_ & _ & U).
    exact (proj1 (U eq_refl)).
Defined.

(** ** Imports that do not go through *)

(** X10: an import that does not run to completion (an unreadable PDF or
    image, a DOCX that cannot be read or extracted or for which the document
    processor is not loaded, a text file that cannot be read, an unsupported
    file) changes one cell only: the source format, already set from the
    offered file.  Text input, attachment, output and all the rest are as
    before. *)
Theorem failed_import_changes_the_source_format_only :
  forall env file st,
    importSucceeds env file = false ->
    fst (handleFileSelect env (Some file) st)
      = setSourceFormat (detectSourceFormat file) st.
Proof.
  intros env file st. unfold importSucceeds, isBinaryType, isTextLike, handleFileSelect.
  destruct (str_eqb (Browser.type file) (lit "application/pdf")
            || startsWith (lit "image/") (Browser.type file)).
  - destruct (Browser.dataURL file); [discriminate|reflexivity].
  - destruct (isDocxName (Browser.name file)).
    + destruct (Browser.arrayBuffer file) as [e|buf]; [reflexivity|].
      destruct (mammoth env) as [extract|]; [|reflexivity].
      destruct (extract buf); [reflexivity|discriminate].
    + destruct (startsWith (lit "text/") (Browser.type file) || isTextName (Browser.name file));
        [|reflexivity].
      destruct (Browser.text file); [reflexivity|discriminate].
Qed.

Lemma failed_import_changes_the_source_format_only_witness :
  fst (handleFileSelect Examples.worldWithoutLibraries
         (Some (Examples.fileNamed "essay.docx" "application/msword"))
         Examples.afterPdf)
  = setSourceFormat fmt_docx Examples.afterPdf.
Proof.
  exact (failed_import_changes_the_source_format_only Examples.worldWithoutLibraries
           (Examples.fileNamed "essay.docx" "application/msword")
           Examples.afterPdf eq_refl).
Defined.

(** X11: offering a file never contacts the model and never touches the
    translation or the term lookup: output, speed, both spinners, the term
    query and the term definition are as before, for every file (or none),
    state and world. *)
Theorem offering_a_file_stays_local :
  forall env files st,
    networkCalls (snd (handleFileSelect env files st)) = [] /\
    output (fst (handleFileSelect env files st)) = output st /\
    speed (fst (handleFileSelect env files st)) = speed st /\
    loading (fst (handleFileSelect env files st)) = loading st /\
    termQuery (fst (handleFileSelect env files st)) = termQuery st /\
    termDefinition (fst (handleFileSelect env files st)) = termDefinition st /\
    definingTerm (fst (handleFileSelect env files st)) = definingTerm st.
Proof.
  intros env [file|] st; [|now repeat split].
  unfold handleFileSelect.
  destruct (str_eqb (Browser.type file) (lit "application/pdf")
            || startsWith (lit "image/") (Browser.type file)).
  - destruct (Browser.dataURL file); now repeat split.
  - destruct (isDocxName (Browser.name file)).
    + destruct (Browser.arrayBuffer file) as [e|buf]; [now repeat split|].
      destruct (mammoth env) as [extract|]; [|now repeat split].
      destruct (extract buf); now repeat split.
    + destruct (startsWith (lit "text/") (Browser.type file) || isTextName (Browser.name file));
        [|now repeat split].
      destruct (Browser.text file); now repeat split.
Qed.

(** ** What can be attached *)

Lemma handleFileSelect_attachment env files st :
  attachmentIsBinary st -> attachmentIsBinary (fst (handleFileSelect env files st)).
Proof.
  intros H. destruct files as [file|]; [|exact H].
  unfold handleFileSelect.
  destruct (str_eqb (Browser.type file) (lit "application/pdf")
            || startsWith (lit "image/") (Browser.type file)) eqn:B.
  - destruct (Browser.dataURL file); [exact B|exact H].
  - destruct (isDocxName (Browser.name file)).
    + destruct (Browser.arrayBuffer file) as [e|buf]; [exact H|].
      destruct (mammoth env) as [extract|]; [|exact H].
      destruct (extract buf); [exact H|exact I].
    + destruct (startsWith (lit "text/") (Browser.type file) || isTextName (Browser.name file));
        [|exact H].
      destruct (Browser.text file); [exact H|exact I].
Qed.

Lemma handleTranslate_attachment env st :
  attachment (fst (handleTranslate env st)) = attachment st.
Proof.
  unfold handleTranslate.
  destruct (negb (truthy (trim (input st))) && negb (defined (attachment st)));
    [reflexivity|].
  cbn [fst]. destruct (outcome _); reflexivity.
Qed.

Lemma handleDefineTerm_attachment env st :
  attachment (fst (handleDefineTerm env st)) = attachment st.
Proof.
  unfold handleDefineTerm.
  destruct (negb (truthy (trim (termQuery st)))); [reflexivity|].
  cbn [fst]. destruct (outcome _); reflexivity.
Qed.

Lemma step_attachment env st a :
  attachmentIsBinary st -> attachmentIsBinary (step env st a).
Proof.
  intros H. destruct a as [v|v|v| | |files| |]; cbn [step]; try exact H.
  - unfold attachmentIsBinary. now rewrite handleTranslate_attachment.
  - unfold attachmentIsBinary. now rewrite handleDefineTerm_attachment.
  - now apply handleFileSelect_attachment.
  - exact I.
Qed.

(** X12: whatever the user does on the translation panel, starting from the
    fresh panel, the attachment it holds (if any) is a PDF or an image: its
    media type is "application/pdf" or starts with "image/".  So nothing else
    is ever sent inline by a translation. *)
Theorem only_pdfs_and_images_are_attached :
  forall env acts, attachmentIsBinary (run env acts initialState).
Proof.
  intros env acts. unfold run.
  assert (G : forall st, attachmentIsBinary st ->
                         attachmentIsBinary (fold_left (step env) acts st)).
  { induction acts as [|a acts IH]; intros st H; [exact H|].
    simpl. apply IH. now apply step_attachment. }
  apply G. exact I.
Qed.

(** ** Exporting *)

(** X13: whenever the export does not take the DOCX or the PDF route (the
    source format is "text", or it is "docx" or "pdf" but the library that
    route needs is not loaded), a non-empty output is exported verbatim: one
    download named translation-<time>.txt of a text/plain UTF-8 blob made of
    the output as it is, through saveAs when present and through an anchor
    click otherwise. *)
Theorem plain_text_export_is_verbatim :
  forall env st,
    output st <> [] ->
    sourceFormat st = fmt_text
    \/ (sourceFormat st = fmt_docx /\ (docx env = false \/ saveAs env = false))
    \/ (sourceFormat st = fmt_pdf /\ pdfMake env = false) ->
    handleDownload env st =
      [ (if saveAs env then SaveAs else AnchorDownload)
          (TextBlob [output st] (lit "text/plain;charset=utf-8"))
          (lit "translation-" ++ decimal (Date_now env) ++ lit ".txt") ].
Proof.
  intros env st O H. unfold handleDownload.
  assert (truthy (output st) = true) as ->
    by (destruct (output st); [contradiction|reflexivity]).
  cbn [negb]. rewrite <- app_assoc.
  destruct H as [F|[[F L]|[F L]]]; rewrite F; cbn [format_eqb andb].
  - destruct (saveAs env); reflexivity.
  - destruct L as [L|L]; rewrite L.
    + cbn [andb]. destruct (saveAs env); reflexivity.
    + rewrite andb_false_r. reflexivity.
  - rewrite L. destruct (saveAs env); reflexivity.
Qed.

Lemma plain_text_export_is_verbatim_witness :
  handleDownload Examples.worldWithoutLibraries Examples.afterDocx =
    [AnchorDownload
       (TextBlob [lit "Line1" ++ nl ++ lit "Line2"] (lit "text/plain;charset=utf-8"))
       (lit "translation-1700000000000.txt")].
Proof.
  refine (plain_text_export_is_verbatim Examples.worldWithoutLibraries Examples.afterDocx
            _ (or_intror (or_introl (conj eq_refl (or_introl eq_refl))))).
  discriminate.
Defined.

Lemma handleTranslate_output env st :
  blank (input st) = false \/ attachment st <> None ->
  truthy (output (fst (handleTranslate env st))) = true.
Proof.
  intros G. rewrite (handleTranslate_submitted _ _ G). cbn [fst].
  destruct (keyed_or_not env) as [(key & K & T)|U].
  - rewrite (translateContent_keyed _ _ _ _ _ K T).
    destruct (generateContent env _) as [e|reply]; unfold outcome; cbn [snd];
      [reflexivity|].
    cbn [output setLoading setOutput Gemini.translation].
    pose proof (or_else_nonempty (response_text reply) (lit "Translation failed.")) as N.
    destruct (or_else _ _); [exfalso; apply N; [discriminate|reflexivity]|reflexivity].
  - rewrite (translateContent_unkeyed _ _ _ _ U). reflexivity.
Qed.

(** X14: the export follows the imported file through the translation.
    After a PDF has been imported and translated, whatever the model did,
    the download is a PDF of the output when pdfMake is loaded; after a DOCX
    with non-blank text has been imported and translated, the download is a
    DOCX of the output when the docx and saveAs libraries are loaded. *)
Theorem export_follows_the_imported_file :
  forall env file st,
    (forall res,
       Browser.type file = lit "application/pdf" -> Browser.dataURL file = Some res ->
       pdfMake env = true ->
       handleDownload env (importedAndTranslated env file st) =
         [PdfDownload (docDefinition (output (importedAndTranslated env file st)))
                      (lit "translation-" ++ decimal (Date_now env) ++ lit ".pdf")]) /\
    (forall buf extractRawText value,
       isBinaryType file = false -> isDocxName (Browser.name file) = true ->
       Browser.arrayBuffer file = inr buf -> mammoth env = Some extractRawText ->
       extractRawText buf = inr value -> blank value = false ->
       docx env = true -> saveAs env = true ->
       handleDownload env (importedAndTranslated env file st) =
         [SaveAs (PackedDocx (docxDocument (output (importedAndTranslated env file st))))
                 (lit "translation-" ++ decimal (Date_now env) ++ lit ".docx")]).
Proof.
  intros env file st. unfold importedAndTranslated. split.
  - intros res P R M.
    assert (S1 : fst (handleFileSelect env (Some file) st)
                 = setInput []
                     (setAttachment
                        (Some {| data := res; mimeType := Browser.type file;
                                 name := Browser.name file |})
                        (setSourceFormat fmt_pdf st))).
    { unfold handleFileSelect, detectSourceFormat.
      apply str_eqb_eq in P. now rewrite P, R. }
    rewrite S1. unfold handleDownload.
    rewrite handleTranslate_output by (right; discriminate).
    rewrite handleTranslate_format. cbn [negb sourceFormat setInput setAttachment
                                          setSourceFormat format_eqb andb].
    rewrite M. now rewrite <- app_assoc.
  - intros buf ex value B D A Mm X V Dx S.
    assert (S1 : fst (handleFileSelect env (Some file) st)
                 = setSourceFormat fmt_docx
                     (setAttachment None
                        (setInput value (setSourceFormat (detectSourceFormat file) st)))).
    { unfold isBinaryType in B. unfold handleFileSelect. now rewrite B, D, A, Mm, X. }
    rewrite S1. unfold handleDownload.
    rewrite handleTranslate_output by (left; exact V).
    rewrite handleTranslate_format. cbn [negb sourceFormat setInput setAttachment
                                          setSourceFormat format_eqb andb].
    rewrite Dx, S. now rewrite <- app_assoc.
Qed.

Lemma export_follows_the_imported_file_witness :
  handleDownload (Examples.worldFailing (Error (lit "fetch failed")))
    (importedAndTranslated (Examples.worldFailing (Error (lit "fetch failed")))
       (Examples.fileNamed "essay.pdf" "application/pdf") initialState)
  = [PdfDownload
       (docDefinition (lit "An error occurred during translation. Please try again."))
       (lit "translation-1700000000000.pdf")].
Proof.
  destruct (export_follows_the_imported_file
              (Examples.worldFailing (Error (lit "fetch failed")))
              (Examples.fileNamed "essay.pdf" "application/pdf") initialState)
    as (P & _).
  exact (P _ eq_refl eq_refl eq_refl).
Defined.

(** ** Generating an image *)

(** X15: the answer of the key check is not consulted.  With a key in the
    environment and a non-blank prompt, whenever the key check returns --
    also when it returns false, AI Studio still reporting no selected key
    after its dialog -- Generate sends exactly the image request built from
    the prompt and the size.  Only when the key check throws (an AI Studio
    call rejects) is nothing sent: the error is logged and shown like any
    other failure, and no image is left.  The dialog is opened exactly when
    AI Studio is present and first answers that no key is selected. *)
Theorem generation_proceeds_whatever_the_key_dialog_says :
  forall env key st,
    API_KEY env = Some key -> truthy key = true ->
    blank (ImageGenerationPanel.prompt st) = false ->
    (forall answer,
       outcome (Gemini.ensureApiKeySelected env) = inr answer ->
       networkCalls (snd (ImageGenerationPanel.handleGenerate env st))
         = [GenerateContent key
              (Gemini.imageRequest (ImageGenerationPanel.prompt st)
                 (ImageGenerationPanel.size st))]) /\
    (forall e,
       outcome (Gemini.ensureApiKeySelected env) = inl e ->
       networkCalls (snd (ImageGenerationPanel.handleGenerate env st)) = [] /\
       In (ConsoleError None (Some e)) (snd (ImageGenerationPanel.handleGenerate env st)) /\
       ImageGenerationPanel.error (fst (ImageGenerationPanel.handleGenerate env st))
         = Some (ImageGenerationPanel.errorMessageFor e) /\
       ImageGenerationPanel.generatedImage (fst (ImageGenerationPanel.handleGenerate env st))
         = None) /\
    (In OpenSelectKey (snd (ImageGenerationPanel.handleGenerate env st)) <->
     exists studio, aistudio env = Some studio /\ hasSelectedApiKey studio = inr false).
Proof.
  intros env key st K T B. rewrite (handleGenerate_submitted _ _ B). cbv zeta.
  rewrite (generatePhilosophicalImage_keyed _ _ _ _ K T).
  pose proof (ensureApiKeySelected_silent env) as N.
  pose proof (ensureApiKeySelected_dialog env) as O.
  assert (M : forall rest,
             (forall ev, In ev rest -> ev <> OpenSelectKey) ->
             (In OpenSelectKey (trace (Gemini.ensureApiKeySelected env) ++ rest) <->
              exists studio,
                aistudio env = Some studio /\ hasSelectedApiKey studio = inr false)).
  { intros rest R. rewrite in_app_iff, O. split; [|now left].
    intros [H|H]; [exact H|]. exfalso. now apply (R _ H). }
  destruct (outcome (Gemini.ensureApiKeySelected env)) as [e0|answer0].
  - split; [intros answer E; discriminate E|]. split.
    + intros e E. injection E as <-. cbn [fst snd]. split; [|split; [|split]].
      * rewrite networkCalls_app, N. reflexivity.
      * apply in_or_app. right. now left.
      * reflexivity.
      * reflexivity.
    + cbn [snd]. apply M. intros ev [<-|[]]. discriminate.
  - destruct (generateContent env _) as [e|reply].
    + unfold outcome at 1, trace at 2 4; cbn [fst snd]. split; [|split].
      * intros answer _. rewrite networkCalls_app, N. reflexivity.
      * intros e' E. discriminate E.
      * apply M. intros ev [<-|[<-|[<-|[]]]]; discriminate.
    + destruct (outcome (Gemini.extractImage _)) as [e|url];
        unfold outcome, trace; cbn [fst snd]; (split; [|split]).
      * intros answer _. fold (trace (Gemini.ensureApiKeySelected env)).
        rewrite networkCalls_app, N. reflexivity.
      * intros e' E. discriminate E.
      * fold (trace (Gemini.ensureApiKeySelected env)).
        apply M. intros ev [<-|[<-|[<-|[]]]]; discriminate.
      * intros answer _. fold (trace (Gemini.ensureApiKeySelected env)).
        rewrite networkCalls_app, N. reflexivity.
      * intros e' E. discriminate E.
      * fold (trace (Gemini.ensureApiKeySelected env)).
        apply M. intros ev [<-|[]]; discriminate.
Qed.

Lemma generation_proceeds_whatever_the_key_dialog_says_witness :
  networkCalls
    (snd (ImageGenerationPanel.handleGenerate
            (Examples.worldDecliningKeyDialog
               (Examples.replyWithParts Examples.captionThenTwoImages))
            Examples.cavePrompt))
  = [GenerateContent (lit "key")
       (Gemini.imageRequest (lit "The allegory of the cave") SIZE_1K)]
  /\ networkCalls
       (snd (ImageGenerationPanel.handleGenerate
               (Examples.worldWithBrokenKeyFlow (Error (lit "bridge closed")))
               Examples.cavePrompt))
     = [].
Proof.
  split.
  - destruct (generation_proceeds_whatever_the_key_dialog_says
                (Examples.worldDecliningKeyDialog
                   (Examples.replyWithParts Examples.captionThenTwoImages))
                (lit "key") Examples.cavePrompt eq_refl eq_refl eq_refl) as (S & _).
    exact (S false eq_refl).
  - destruct (generation_proceeds_whatever_the_key_dialog_says
                (Examples.worldWithBrokenKeyFlow (Error (lit "bridge closed")))
                (lit "key") Examples.cavePrompt eq_refl eq_refl eq_refl) as (_ & F & _).
    exact (proj1 (F _ eq_refl)).
Defined.

(** X16: a generation that gets past the guard ends with the spinner off
    and with exactly one of an image and an error message: either the image
    is set and the error is cleared, or the image shown before is gone and
    the error is one of the two messages of the panel.  Prompt and size are
    not touched. *)
Theorem generation_ends_with_an_image_or_an_error :
  forall env st,
    blank (ImageGenerationPanel.prompt st) = false ->
    ImageGenerationPanel.loading (fst (ImageGenerationPanel.handleGenerate env st)) = false /\
    ImageGenerationPanel.prompt (fst (ImageGenerationPanel.handleGenerate env st))
      = ImageGenerationPanel.prompt st /\
    ImageGenerationPanel.size (fst (ImageGenerationPanel.handleGenerate env st))
      = ImageGenerationPanel.size st /\
    ((exists url,
        ImageGenerationPanel.generatedImage (fst (ImageGenerationPanel.handleGenerate env st))
          = Some url /\
        ImageGenerationPanel.error (fst (ImageGenerationPanel.handleGenerate env st)) = None)
     \/
     (ImageGenerationPanel.generatedImage (fst (ImageGenerationPanel.handleGenerate env st))
        = None /\
      (ImageGenerationPanel.error (fst (ImageGenerationPanel.handleGenerate env st))
         = Some (lit "Authentication failed. Please try selecting the API key again.")
       \/ ImageGenerationPanel.error (fst (ImageGenerationPanel.handleGenerate env st))
            = Some (lit "Failed to generate image. Please try again.")))).
Proof.
  intros env st B. rewrite (handleGenerate_submitted _ _ B). cbv zeta.
  assert (F : forall e tr,
            let st' := (ImageGenerationPanel.setLoading false
                          (ImageGenerationPanel.setError
                             (Some (ImageGenerationPanel.errorMessageFor e))
                             (ImageGenerationPanel.setGeneratedImage None
                                (ImageGenerationPanel.setError None
                                   (ImageGenerationPanel.setLoading true st)))),
                        tr : list Event) in
            ImageGenerationPanel.generatedImage (fst st') = None /\
            (ImageGenerationPanel.error (fst st')
               = Some (lit "Authentication failed. Please try selecting the API key again.")
             \/ ImageGenerationPanel.error (fst st')
                  = Some (lit "Failed to generate image. Please try again."))).
  { intros e tr. cbv zeta. cbn [fst]. split; [reflexivity|].
    cbn [ImageGenerationPanel.error ImageGenerationPanel.setLoading
         ImageGenerationPanel.setError].
    unfold ImageGenerationPanel.errorMessageFor.
    destruct (ImageGenerationPanel.isAuthFailure e); [now left|now right]. }
  destruct (outcome (Gemini.ensureApiKeySelected env)) as [e|answer].
  - split; [reflexivity|]. split; [reflexivity|]. split; [reflexivity|].
    right. apply F.
  - destruct (outcome (Gemini.generatePhilosophicalImage env _ _)) as [e|url].
    + split; [reflexivity|]. split; [reflexivity|]. split; [reflexivity|].
      right. apply F.
    + split; [reflexivity|]. split; [reflexivity|]. split; [reflexivity|].
      left. now exists url.
Qed.

Lemma generation_ends_with_an_image_or_an_error_witness :
  ImageGenerationPanel.generatedImage
    (fst (ImageGenerationPanel.handleGenerate Examples.worldWithoutKey Examples.cavePrompt))
  = None
  /\ ImageGenerationPanel.error
       (fst (ImageGenerationPanel.handleGenerate Examples.worldWithoutKey Examples.cavePrompt))
     = Some (lit "Failed to generate image. Please try again.").
Proof.
  destruct (generation_ends_with_an_image_or_an_error Examples.worldWithoutKey
              Examples.cavePrompt eq_refl) as (_ & _ & _ & [(url & I & _)|(I & _)]).
  - discriminate I.
  - split; [exact I|reflexivity].
Defined.

Lemma startsWith_spec (p s : jsstring) :
  startsWith p s = true <-> exists rest, s = p ++ rest.
Proof.
  revert s. induction p as [|x p IH]; intros s; simpl.
  - split; [intros _; now exists s|reflexivity].
  - destruct s as [|y s].
    + split; [discriminate|]. intros (r & E). discriminate E.
    + rewrite andb_true_iff, N.eqb_eq, IH. split.
      * intros (-> & r & ->). now exists r.
      * intros (r & E). injection E as -> ->. split; [reflexivity|now exists r].
Qed.

Lemma includes_spec (p s : jsstring) : includes p s = true <-> occursIn p s.
Proof.
  unfold occursIn. induction s as [|c s IH].
  - simpl. rewrite orb_false_r, startsWith_spec. split.
    + intros (r & E). now exists [], r.
    + intros (b & a & E). destruct b as [|x b]; [now exists a|discriminate E].
  - cbn [includes]. rewrite orb_true_iff, startsWith_spec, IH. split.
    + intros [(r & E)|(b & a & E)].
      * now exists [], r.
      * exists (c :: b), a. simpl. now rewrite E.
    + intros (b & a & E). destruct b as [|x b].
      * left. now exists a.
      * right. injection E as _ E. now exists b, a.
Qed.

(** X17: when the image call itself fails (the key check before it having
    returned), the panel shows the
    authentication message exactly when the error carries a message in which
    "Requested entity was not found" occurs, and the generic failure message
    in every other case (no message at all included). *)
Theorem authentication_message_iff_entity_not_found :
  forall env key st e answer,
    API_KEY env = Some key -> truthy key = true ->
    blank (ImageGenerationPanel.prompt st) = false ->
    outcome (Gemini.ensureApiKeySelected env) = inr answer ->
    generateContent env
      (Gemini.imageRequest (ImageGenerationPanel.prompt st) (ImageGenerationPanel.size st))
      = inl e ->
    (ImageGenerationPanel.error (fst (ImageGenerationPanel.handleGenerate env st))
       = Some (lit "Authentication failed. Please try selecting the API key again.")
     <-> exists m, message e = Some m /\ occursIn (lit "Requested entity was not found") m) /\
    (ImageGenerationPanel.error (fst (ImageGenerationPanel.handleGenerate env st))
       = Some (lit "Failed to generate image. Please try again.")
     <-> ~ exists m, message e = Some m /\ occursIn (lit "Requested entity was not found") m).
Proof.
  intros env key st e answer K T B C R.
  rewrite (handleGenerate_submitted _ _ B). cbv zeta.
  rewrite C, (generatePhilosophicalImage_keyed _ _ _ _ K T), R.
  unfold outcome; cbn [fst snd ImageGenerationPanel.error ImageGenerationPanel.setLoading
                         ImageGenerationPanel.setError].
  unfold ImageGenerationPanel.errorMessageFor.
  assert (A : ImageGenerationPanel.isAuthFailure e = true <->
              exists m, message e = Some m /\ occursIn (lit "Requested entity was not found") m).
  { unfold ImageGenerationPanel.isAuthFailure. destruct (message e) as [m|].
    - rewrite includes_spec. split; [intros H; now exists m|].
      intros (m' & E & H). now injection E as <-.
    - split; [discriminate|]. intros (m' & E & _). discriminate E. }
  destruct (ImageGenerationPanel.isAuthFailure e).
  - split; split.
    + intros _. now apply A.
    + reflexivity.
    + intros H. discriminate H.
    + intros N. exfalso. apply N. now apply A.
  - split; split.
    + intros H. discriminate H.
    + intros H. apply A in H. discriminate H.
    + intros _ H. apply A in H. discriminate H.
    + reflexivity.
Qed.

Lemma authentication_message_iff_entity_not_found_witness :
  ImageGenerationPanel.error
    (fst (ImageGenerationPanel.handleGenerate
            (Examples.worldFailing
               (Error (lit "404: Requested entity was not found.")))
            Examples.cavePrompt))
  = Some (lit "Authentication failed. Please try selecting the API key again.").
Proof.
  destruct (authentication_message_iff_entity_not_found
              (Examples.worldFailing (Error (lit "404: Requested entity was not found.")))
              (lit "key") Examples.cavePrompt
              (Error (lit "404: Requested entity was not found.")) true
              eq_refl eq_refl eq_refl eq_refl eq_refl) as (A & _).
  apply A. exists (lit "404: Requested entity was not found."). split; [reflexivity|].
  exists (lit "404: "), (lit "."). reflexivity.
Defined.

(** X18: every image the service returns is a base64 data URL: it starts
    with "data:" and contains ";base64,"; and a call made with a key sends
    exactly the one image request, whether it then returns or throws. *)
Theorem generated_image_is_a_data_url :
  forall env key prompt size,
    API_KEY env = Some key -> truthy key = true ->
    networkCalls (trace (Gemini.generatePhilosophicalImage env prompt size))
      = [GenerateContent key (Gemini.imageRequest prompt size)] /\
    (forall url,
       outcome (Gemini.generatePhilosophicalImage env prompt size) = inr url ->
       startsWith (lit "data:") url = true /\ occursIn (lit ";base64,") url).
Proof.
  intros env key prompt size K T.
  rewrite (generatePhilosophicalImage_keyed _ _ _ _ K T).
  destruct (generateContent env _) as [e|reply].
  - split; [reflexivity|]. intros url E. discriminate E.
  - assert (D : forall ps url,
               outcome (Gemini.extractImage ps) = inr url ->
               startsWith (lit "data:") url = true /\ occursIn (lit ";base64,") url).
    { induction ps as [|p ps IH]; intros url; cbn [Gemini.extractImage].
      { unfold outcome, throw; cbn [snd]. intros E. discriminate E. }
      destruct (inlineData p) as [b|]; [|apply IH].
      unfold outcome, ret; cbn [snd]. intros E. injection E as <-.
      unfold Gemini.dataUrlOf. split.
      - apply startsWith_spec. eexists. reflexivity.
      - exists (lit "data:" ++ or_else (Genai.mimeType b) (lit "image/png")),
               (interpolate (Genai.data b)).
        now rewrite <- !app_assoc. }
    destruct (outcome (Gemini.extractImage (Gemini.partsOf reply))) as [e|url] eqn:O.
    + split; [reflexivity|]. intros url E. discriminate E.
    + split; [reflexivity|]. intros url' E. unfold outcome in E; cbn [snd] in E.
      injection E as <-. now apply (D (Gemini.partsOf reply)).
Qed.

Lemma generated_image_is_a_data_url_witness :
  networkCalls
    (trace (Gemini.generatePhilosophicalImage
              (Examples.worldReplying (Examples.replyWithParts Examples.captionThenTwoImages))
              (lit "The allegory of the cave") SIZE_4K))
  = [GenerateContent (lit "key")
       (Gemini.imageRequest (lit "The allegory of the cave") SIZE_4K)].
Proof.
  exact (proj1 (generated_image_is_a_data_url
                  (Examples.worldReplying
                     (Examples.replyWithParts Examples.captionThenTwoImages))
                  (lit "key") (lit "The allegory of the cave") SIZE_4K eq_refl eq_refl)).
Defined.

(** ** Analysing an image *)



(** X20: selecting an image makes it the selection and clears the analysis
    shown, whatever was there; the preview changes only if the read of the
    new image succeeds, so an unreadable image is selected under the preview
    of the previous one.  Analyze then works on the new image.  Closing the
    picker without a file changes nothing. *)
Theorem selecting_an_image_replaces_the_selection :
  forall env file st,
    ImageAnalysisPanel.selectedFile (ImageAnalysisPanel.handleFileSelect (Some file) st)
      = Some file /\
    ImageAnalysisPanel.analysis (ImageAnalysisPanel.handleFileSelect (Some file) st) = [] /\
    ImageAnalysisPanel.previewUrl (ImageAnalysisPanel.handleFileSelect (Some file) st)
      = match Browser.dataURL file with
        | Some res => Some res
        | None => ImageAnalysisPanel.previewUrl st
        end /\
    snd (ImageAnalysisPanel.handleAnalyze env
           (ImageAnalysisPanel.handleFileSelect (Some file) st))
      = trace (Gemini.analyzeImage env file None) /\
    ImageAnalysisPanel.handleFileSelect None st = st.
Proof.
  intros env file st.
  assert (S : ImageAnalysisPanel.selectedFile
                (ImageAnalysisPanel.handleFileSelect (Some file) st) = Some file).
  { unfold ImageAnalysisPanel.handleFileSelect. destruct (Browser.dataURL file); reflexivity. }
  split; [exact S|]. split; [|split; [|split; [|reflexivity]]].
  - unfold ImageAnalysisPanel.handleFileSelect. destruct (Browser.dataURL file); reflexivity.
  - unfold ImageAnalysisPanel.handleFileSelect. destruct (Browser.dataURL file); reflexivity.
  - now rewrite (handleAnalyze_submitted _ _ _ S).
Qed.

(** ** The two translation panels *)

(** X21: on a panel without attachment the full translation panel and its
    text-only variant do the same: from states that agree on their common
    cells, Translate produces the same trace and states that agree again. *)
Theorem text_only_panel_agrees_without_attachment :
  forall env st,
    attachment st = None ->
    TextTranslationPanel.handleTranslate env (textOnly st)
      = (textOnly (fst (handleTranslate env st)), snd (handleTranslate env st)).
Proof.
  intros env st A. unfold TextTranslationPanel.handleTranslate, handleTranslate.
  rewrite A. cbn [defined negb TextTranslationPanel.input textOnly].
  rewrite andb_true_r.
  destruct (negb (truthy (trim (input st)))); [reflexivity|].
  unfold Gemini.translateText. cbn [fst snd TextTranslationPanel.speed].
  destruct (outcome _); reflexivity.
Qed.

Lemma text_only_panel_agrees_without_attachment_witness :
  snd (TextTranslationPanel.handleTranslate (Examples.worldReplying Examples.emptyReply)
         (textOnly (Examples.typed (lit "Dasein"))))
  = snd (handleTranslate (Examples.worldReplying Examples.emptyReply)
           (Examples.typed (lit "Dasein"))).
Proof.
  rewrite (text_only_panel_agrees_without_attachment
             (Examples.worldReplying Examples.emptyReply)
             (Examples.typed (lit "Dasein")) eq_refl).
  reflexivity.
Defined.

(** ** Removing the attachment *)

(** X22: once the attachment has been removed, Translate sends no inline
    data: any request it sends is the text-only request built from the text
    input; and a non-empty output is then exported as plain text, whatever
    file had been imported before. *)
Theorem removed_attachment_is_not_sent :
  forall env st,
    (forall key req,
       In (GenerateContent key req) (snd (handleTranslate env (clearAttachment st))) ->
       req = Gemini.translateRequest (input st) None (speed st)) /\
    (output st <> [] ->
     handleDownload env (clearAttachment st) =
       [ (if saveAs env then SaveAs else AnchorDownload)
           (TextBlob [output st] (lit "text/plain;charset=utf-8"))
           (lit "translation-" ++ decimal (Date_now env) ++ lit ".txt") ]).
Proof.
  intros env st. split.
  - intros key req. unfold handleTranslate.
    cbn [clearAttachment attachment input speed setSourceFormat setAttachment defined negb].
    destruct (negb (truthy (trim (input st))) && true); [intros []|].
    cbn [snd]. rewrite translateContent_trace.
    destruct (API_KEY env) as [k|]; [destruct (truthy k)|].
    + intros [H|H]; [now injection H as _ <-|].
      destruct (generateContent env _); [destruct H as [H|[]]; discriminate H|destruct H].
    + intros [H|[]]. discriminate H.
    + intros [H|[]]. discriminate H.
  - intros O. unfold handleDownload.
    cbn [clearAttachment output sourceFormat setSourceFormat setAttachment format_eqb andb].
    assert (truthy (output st) = true) as ->
      by (destruct (output st); [contradiction|reflexivity]).
    cbn [negb]. rewrite <- app_assoc. destruct (saveAs env); reflexivity.
Qed.

Lemma removed_attachment_is_not_sent_witness :
  handleDownload (Examples.worldReplying Examples.emptyReply)
    (clearAttachment Examples.afterPdf)
  = [SaveAs (TextBlob [lit "Hello" ++ nl ++ lit "World"] (lit "text/plain;charset=utf-8"))
            (lit "translation-1700000000000.txt")].
Proof.
  destruct (removed_attachment_is_not_sent (Examples.worldReplying Examples.emptyReply)
              Examples.afterPdf) as (_ & D).
  apply D. discriminate.
Defined.

(** ** The guards are exact *)

(** X23: with a key configured, Translate sends a request exactly when
    there is something to send (a non-blank text or an attachment), and
    Lookup exactly when the term is not blank.  What is sent is built from
    the text as typed: the guards trim, the requests do not. *)
Theorem requests_are_sent_exactly_past_the_guards :
  forall env key st,
    API_KEY env = Some key -> truthy key = true ->
    (blank (input st) = false \/ attachment st <> None ->
     networkCalls (snd (handleTranslate env st)) = [GenerateContent key (requestOf st)]) /\
    (blank (input st) = true /\ attachment st = None ->
     snd (handleTranslate env st) = []) /\
    (blank (termQuery st) = false ->
     networkCalls (snd (handleDefineTerm env st))
       = [GenerateContent key (Gemini.defineTermRequest (termQuery st))]) /\
    (blank (termQuery st) = true -> snd (handleDefineTerm env st) = []).
Proof.
  intros env key st K T. split; [|split; [|split]].
  - intros G. rewrite (handleTranslate_submitted _ _ G). cbn [snd].
    rewrite (translateContent_keyed _ _ _ _ _ K T). unfold requestOf.
    destruct (generateContent env _); reflexivity.
  - intros [B A]. unfold handleTranslate. now rewrite truthy_trim, B, A.
  - intros B. rewrite (handleDefineTerm_submitted _ _ B). cbn [snd].
    rewrite (defineTerm_keyed _ _ _ K T).
    destruct (generateContent env _); reflexivity.
  - intros B. unfold handleDefineTerm. now rewrite truthy_trim, B.
Qed.

Lemma requests_are_sent_exactly_past_the_guards_witness :
  networkCalls (snd (handleTranslate (Examples.worldReplying Examples.emptyReply)
                       (Examples.typed (lit " Dasein "))))
  = [GenerateContent (lit "key") (Gemini.translateRequest (lit " Dasein ") None DEEP)]
  /\ networkCalls (snd (handleDefineTerm (Examples.worldReplying Examples.emptyReply)
                          (Examples.lookingUp (lit " Zeitgeist"))))
     = [GenerateContent (lit "key") (Gemini.defineTermRequest (lit " Zeitgeist"))].
Proof.
  destruct (requests_are_sent_exactly_past_the_guards
              (Examples.worldReplying Examples.emptyReply) (lit "key")
              (Examples.typed (lit " Dasein ")) eq_refl eq_refl) as (Tr & _).
  destruct (requests_are_sent_exactly_past_the_guards
              (Examples.worldReplying Examples.emptyReply) (lit "key")
              (Examples.lookingUp (lit " Zeitgeist")) eq_refl eq_refl) as (_ & _ & Df & _).
  split; [exact (Tr (or_introl eq_refl)) | exact (Df eq_refl)].
Defined.

(** ** The key dialog *)

(** Settle one case of the key flow: which failure, if any, is logged. *)
Ltac auth_failed_cases studio :=
  cbn [negb fst snd app];
  split;
  [ let I := fresh "I" in
    intros I; cbn [In app] in I;
    repeat match type of I with _ \/ _ => destruct I as [I|I] end;
    try contradiction; try discriminate I;
    inversion I; subst; exists studio; split; try reflexivity; intuition congruence
  | let s' := fresh "s" in let E := fresh "E" in let D := fresh "D" in
    intros (s' & E & D); injection E as <-; cbn [In app]; intuition congruence ].

(** X24: the "Reset/Select API Key" button never fails and never contacts
    the model.  Its effects are those of the key check, followed, exactly
    when an AI Studio call rejects, by the log "Auth failed" with the error;
    outside AI Studio it does nothing at all.  The dialog is opened exactly
    when AI Studio is present and first answers that no key is selected, and
    the key check answers true without asking anything outside AI Studio. *)
Theorem key_check_opens_the_dialog_only_when_needed :
  forall env,
    networkCalls (ImageGenerationPanel.handleAuthorize env) = [] /\
    (forall answer,
       outcome (Gemini.ensureApiKeySelected env) = inr answer ->
       ImageGenerationPanel.handleAuthorize env = trace (Gemini.ensureApiKeySelected env)) /\
    (forall e,
       outcome (Gemini.ensureApiKeySelected env) = inl e ->
       ImageGenerationPanel.handleAuthorize env
         = trace (Gemini.ensureApiKeySelected env)
           ++ [ConsoleError (Some (lit "Auth failed")) (Some e)]) /\
    (forall e,
       In (ConsoleError (Some (lit "Auth failed")) (Some e))
          (ImageGenerationPanel.handleAuthorize env) <->
       exists studio,
         aistudio env = Some studio /\
         (hasSelectedApiKey studio = inl e \/
          (hasSelectedApiKey studio = inr false /\
           (openSelectKey studio = inl e \/
            (openSelectKey studio = inr tt /\ hasSelectedApiKey_after studio = inl e))))) /\
    (In OpenSelectKey (ImageGenerationPanel.handleAuthorize env) <->
     exists studio, aistudio env = Some studio /\ hasSelectedApiKey studio = inr false) /\
    (aistudio env = None ->
     ImageGenerationPanel.handleAuthorize env = [] /\
     Gemini.ensureApiKeySelected env = ([], inr true)).
Proof.
  intros env.
  assert (R : forall answer,
             outcome (Gemini.ensureApiKeySelected env) = inr answer ->
             ImageGenerationPanel.handleAuthorize env
               = trace (Gemini.ensureApiKeySelected env)).
  { intros answer. unfold ImageGenerationPanel.handleAuthorize.
    destruct (Gemini.ensureApiKeySelected env) as [t [e|b]]; run_eff;
      [discriminate|]. intros _. apply app_nil_r. }
  assert (F : forall e,
             outcome (Gemini.ensureApiKeySelected env) = inl e ->
             ImageGenerationPanel.handleAuthorize env
               = trace (Gemini.ensureApiKeySelected env)
                 ++ [ConsoleError (Some (lit "Auth failed")) (Some e)]).
  { intros e. unfold ImageGenerationPanel.handleAuthorize.
    destruct (Gemini.ensureApiKeySelected env) as [t [e'|b]]; run_eff;
      [|discriminate]. intros E. now injection E as <-. }
  split; [|split; [exact R|split; [exact F|split; [|split]]]].
  - pose proof (ensureApiKeySelected_silent env) as N.
    destruct (outcome (Gemini.ensureApiKeySelected env)) as [e|b] eqn:O.
    + rewrite (F e eq_refl), networkCalls_app, N. reflexivity.
    + rewrite (R b eq_refl). exact N.
  - intros e. unfold ImageGenerationPanel.handleAuthorize, Gemini.ensureApiKeySelected.
    destruct (aistudio env) as [studio|].
    + destruct (hasSelectedApiKey studio) as [e1|[|]] eqn:H1; cbn [negb]; run_eff;
        [auth_failed_cases studio|auth_failed_cases studio|].
      destruct (openSelectKey studio) as [e2|[]] eqn:H2; run_eff;
        [auth_failed_cases studio|].
      destruct (hasSelectedApiKey_after studio) as [e3|b3] eqn:H3; run_eff;
        auth_failed_cases studio.
    + run_eff. split; [intros []|]. intros (s' & E & _). discriminate E.
  - pose proof (ensureApiKeySelected_dialog env) as O.
    destruct (outcome (Gemini.ensureApiKeySelected env)) as [e|b] eqn:Q.
    + rewrite (F e eq_refl), in_app_iff, O. split; [|now left].
      intros [H|[H|[]]]; [exact H|discriminate H].
    + now rewrite (R b eq_refl).
  - intros A. unfold ImageGenerationPanel.handleAuthorize, Gemini.ensureApiKeySelected.
    rewrite A. split; reflexivity.
Qed.

Lemma key_check_opens_the_dialog_only_when_needed_witness :
  ImageGenerationPanel.handleAuthorize
    (Examples.worldWithBrokenKeyFlow (Error (lit "bridge closed")))
  = [ConsoleError (Some (lit "Auth failed")) (Some (Error (lit "bridge closed")))]
  /\ ImageGenerationPanel.handleAuthorize
       (Examples.worldDecliningKeyDialog Examples.emptyReply)
     = [OpenSelectKey]
  /\ ImageGenerationPanel.handleAuthorize (Examples.worldReplying Examples.emptyReply) = [].
Proof.
  split; [|split].
  - destruct (key_check_opens_the_dialog_only_when_needed
                (Examples.worldWithBrokenKeyFlow (Error (lit "bridge closed"))))
      as (_ & _ & F & _).
    exact (F _ eq_refl).
  - destruct (key_check_opens_the_dialog_only_when_needed
                (Examples.worldDecliningKeyDialog Examples.emptyReply))
      as (_ & R & _).
    exact (R false eq_refl).
  - destruct (key_check_opens_the_dialog_only_when_needed
                (Examples.worldReplying Examples.emptyReply))
      as (_ & _ & _ & _ & _ & N).
    exact (proj1 (N eq_refl)).
Defined.
